(** * RL-2048, [plot.py]: the training-log parser and the tick computation

    [parse_2048_training_data] reads the text of a training log line by
    line and collects a metadata dictionary and three series; the plotting
    function computes the x-axis ticks of its two charts from the episode
    series.  The development follows the Python source: its builtins
    ([str.strip], [str.split], [int], [float], [range], ...), the [re]
    operations it calls on its five patterns, the loop body, the loop.
    The parser is given twice: as a function on the values of its four
    variables, and on a heap, where the dictionary and the lists are
    objects updated in place.  The plotting function is given as the
    sequence of its calls of matplotlib, any of which may raise.

    A Python [str] is modelled as a list of characters, each an [ascii]
    standing for the code point of the same number (U+0000 to U+00FF). *)

From Stdlib Require Import ZArith Ascii String List Lia Floats.SpecFloat.
From stdpp Require Import gmap strings list relations.

Local Open Scope nat_scope.

(** ** Exceptions and results *)

Inductive exn := IndexError | ValueError.

Inductive result (A : Type) : Type :=
| OK (a : A)
| Raise (e : exn).
Arguments OK {A} a.
Arguments Raise {A} e.

#[global] Instance result_ret : MRet result := fun A a => OK a.
#[global] Instance result_bind : MBind result := fun A B f r =>
  match r with
  | OK a => f a
  | Raise e => Raise e
  end.

Definition str := list ascii.

(** A literal of the source. *)
Definition lit (s : string) : str := list_ascii_of_string s.

(** ** Builtins of Python used by the source *)
Module Py.

(** [str.isspace] of one character, which is also the class [\s] of [re]
    on a [str] pattern: below U+0100 these are U+0009..U+000D,
    U+001C..U+0020, U+0085 and U+00A0. *)
Definition isspace (a : ascii) : bool :=
  let n := nat_of_ascii a in
  ((9 <=? n) && (n <=? 13)) || ((28 <=? n) && (n <=? 32))
  || (n =? 133) || (n =? 160).

(** The class [\d]: below U+0100 the decimal digits are 0 to 9. *)
Definition isdecimal (a : ascii) : bool :=
  let n := nat_of_ascii a in (48 <=? n) && (n <=? 57).

Definition newline : ascii := ascii_of_nat 10.

Fixpoint lstrip (s : str) : str :=
  match s with
  | a :: s' => if isspace a then lstrip s' else s
  | [] => []
  end.

Definition rstrip (s : str) : str := rev (lstrip (rev s)).

(** [s.strip()] *)
Definition strip (s : str) : str := rstrip (lstrip s).

(** [s.startswith(prefix)] *)
Fixpoint startswith (s prefix : str) {struct prefix} : bool :=
  match prefix with
  | [] => true
  | p :: prefix' =>
    match s with
    | a :: s' => if Ascii.eqb a p then startswith s' prefix' else false
    | [] => false
    end
  end.

(** [s.split(sep)] for a non-empty [sep] (the source passes the literals
    ['\n'] and [' = ']): the occurrences of [sep] are found from the left
    and do not overlap.  [skip] counts the characters of an occurrence
    still to pass, [cur] holds the current piece, reversed. *)
Fixpoint split_from (sep : str) (skip : nat) (cur : str) (s : str)
  : list str :=
  match s with
  | [] => [rev cur]
  | a :: s' =>
    match skip with
    | S n => split_from sep n cur s'
    | O =>
      if startswith s sep
      then rev cur :: split_from sep (length sep - 1) [] s'
      else split_from sep 0 (a :: cur) s'
    end
  end.

Definition split (s sep : str) : list str := split_from sep 0 [] s.

(** [l[i]] for [i >= 0] *)
Definition getitem {A} (l : list A) (i : nat) : result A :=
  match l !! i with
  | Some x => OK x
  | None => Raise IndexError
  end.

(** [l[-1] = x] *)
Definition set_last {A} (l : list A) (x : A) : result (list A) :=
  match l with
  | [] => Raise IndexError
  | _ :: _ => OK (<[pred (length l) := x]> l)
  end.

Definition digit_value (a : ascii) : Z := (Z.of_nat (nat_of_ascii a) - 48)%Z.

Definition digits_value (s : str) : Z :=
  fold_left (fun acc a => (10 * acc + digit_value a)%Z) s 0%Z.

(** The interpreter's limit on the number of digits of an [int] literal
    ([sys.get_int_max_str_digits()], 4300 by default since Python 3.11):
    0, or an older interpreter, means no limit. *)
Definition within_limit (max_str_digits : nat) (s : str) : bool :=
  (max_str_digits =? 0) || (length s <=? max_str_digits).

(** [int(s)] on a string of decimal digits, which is what the source
    passes (lemma [parts0_digits] below); signs, underscores and
    surrounding blanks, which [int] would accept, cannot reach it. *)
Definition int (max_str_digits : nat) (s : str) : result Z :=
  match s with
  | [] => Raise ValueError
  | _ :: _ =>
    if forallb isdecimal s && within_limit max_str_digits s
    then OK (digits_value s)
    else Raise ValueError
  end.

Definition binary64 := spec_float.

Definition prec : Z := 53.
Definition emax : Z := 1024.

(** The double nearest to [n / 10^k] (ties to even), infinite on
    overflow. *)
Definition decimal_to_binary64 (n : Z) (k : nat) : binary64 :=
  match n with
  | Zpos m =>
    SFdiv prec emax (S754_finite false m 0)
          (S754_finite false (Z.to_pos (10 ^ Z.of_nat k)) 0)
  | _ => S754_zero false
  end.

Definition isdot (a : ascii) : bool := Ascii.eqb a "."%char.

(** The characters after the first dot. *)
Fixpoint after_dot (s : str) : str :=
  match s with
  | [] => []
  | a :: s' => if isdot a then s' else after_dot s'
  end.

(** A string of decimal digits and dots is a float literal exactly when
    it has at least one digit and at most one dot. *)
Definition float_literal (s : str) : bool :=
  forallb (fun a => isdecimal a || isdot a) s
  && (length (filter (fun a => isdot a = true) s) <=? 1)
  && negb (length (filter (fun a => isdecimal a = true) s) =? 0).

(** [float(s)] on a string of decimal digits and dots, which is what the
    source passes (a capture of [[\d.]+], lemmas [mean_search_group] and
    [prob_search_group] below). *)
Definition float (s : str) : result binary64 :=
  if float_literal s then
    let digits := filter (fun a => isdecimal a = true) s in
    let frac := length (filter (fun a => isdecimal a = true) (after_dot s)) in
    OK (decimal_to_binary64 (digits_value digits) frac)
  else Raise ValueError.

(** [range(start, stop, step)], as the list of its elements. *)
Definition range (start stop step : Z) : result (list Z) :=
  if (step =? 0)%Z then Raise ValueError
  else
    let n :=
      if (0 <? step)%Z
      then if (start <? stop)%Z then (1 + (stop - 1 - start) / step)%Z else 0%Z
      else if (stop <? start)%Z then (1 + (start - 1 - stop) / (- step))%Z else 0%Z
    in
    OK (map (fun i => (start + Z.of_nat i * step)%Z) (seq 0 (Z.to_nat n))).

End Py.


(** ** The part of [re] used by the source

    The five patterns of the source are sequences of single characters and
    of character classes under [*] or [+], with [^] and one capture group.
    Matching is by backtracking, each [*] and [+] greedy, as in [re]. *)
Module Re.

(** A set of characters: [\d], [\s], [[\d.]] or one literal character. *)
Inductive cls :=
| Digit
| Space
| DigitDot
| Chr (a : ascii).

Definition mem (c : cls) (a : ascii) : bool :=
  match c with
  | Digit => Py.isdecimal a
  | Space => Py.isspace a
  | DigitDot => Py.isdecimal a || Py.isdot a
  | Chr b => Ascii.eqb a b
  end.

Inductive node :=
| Bol                (* ^ *)
| One (c : cls)      (* c *)
| Star (c : cls)     (* c* *)
| Plus (c : cls)     (* c+ *)
| GroupOpen          (* ( *)
| GroupClose.        (* ) *)

Definition regex := list node.

(** The characters of a literal word, one node each. *)
Definition word (s : string) : regex := map (fun a => One (Chr a)) (lit s).

(** The span of group 1, as two positions in the subject. *)
Definition span := (nat * nat)%type.

(** [greedy c k pos s]: as many characters of [c] as possible from [s],
    which starts at position [pos], then [k]; one character fewer when
    [k] fails, and so on. *)
Fixpoint greedy {R} (c : cls) (k : nat -> str -> option R)
         (pos : nat) (s : str) : option R :=
  match s with
  | a :: s' =>
    if mem c a
    then match greedy c k (S pos) s' with
         | Some r => Some r
         | None => k pos s
         end
    else k pos s
  | [] => k pos []
  end.

(** [exec p g pos s]: match [p] against [s], which starts at position
    [pos] of the subject; the result is the end position of the match and
    the span of the group. *)
Fixpoint exec (p : regex) (g : span) (pos : nat) (s : str)
  : option (nat * span) :=
  match p with
  | [] => Some (pos, g)
  | Bol :: p' => if pos =? 0 then exec p' g pos s else None
  | One c :: p' =>
    match s with
    | a :: s' => if mem c a then exec p' g (S pos) s' else None
    | [] => None
    end
  | Star c :: p' => greedy c (exec p' g) pos s
  | Plus c :: p' =>
    match s with
    | a :: s' => if mem c a then greedy c (exec p' g) (S pos) s' else None
    | [] => None
    end
  | GroupOpen :: p' => exec p' (pos, snd g) pos s
  | GroupClose :: p' => exec p' (fst g, pos) pos s
  end.

(** What [exec] decides, without the order of the search: [matches p g
    pos s r] when some prefix of [s] is in the language of [p], [r] being
    the end position and the span of the group on that way through [p]. *)
Fixpoint matches (p : regex) (g : span) (pos : nat) (s : str)
         (r : nat * span) : Prop :=
  match p with
  | [] => r = (pos, g)
  | Bol :: p' => pos = 0 /\ matches p' g pos s r
  | One c :: p' =>
    exists a t, s = a :: t /\ mem c a = true /\ matches p' g (S pos) t r
  | Star c :: p' =>
    exists u t, s = u ++ t /\ Forall (fun a => mem c a = true) u
                /\ matches p' g (pos + length u) t r
  | Plus c :: p' =>
    exists a u t, s = a :: u ++ t /\ mem c a = true
                  /\ Forall (fun a => mem c a = true) u
                  /\ matches p' g (S pos + length u) t r
  | GroupOpen :: p' => matches p' (pos, snd g) pos s r
  | GroupClose :: p' => matches p' (fst g, pos) pos s r
  end.

(** A match object: the subject, where the match starts and ends, and the
    span of group 1. *)
Record Match := {
  m_string : str;
  m_start : nat;
  m_end : nat;
  m_group : span
}.

(** [m.group(1)] *)
Definition group1 (m : Match) : str :=
  take (snd (m_group m) - fst (m_group m)) (drop (fst (m_group m)) (m_string m)).

(** [re.match(p, s)] *)
Definition match_ (p : regex) (s : str) : option Match :=
  match exec p (0, 0) 0 s with
  | Some (e, g) => Some {| m_string := s; m_start := 0; m_end := e; m_group := g |}
  | None => None
  end.

(** The first position from [pos] on at which [p] matches. *)
Fixpoint search_from (p : regex) (pos : nat) (s : str)
  : option (nat * (nat * span)) :=
  match exec p (0, 0) pos s with
  | Some r => Some (pos, r)
  | None =>
    match s with
    | [] => None
    | _ :: s' => search_from p (S pos) s'
    end
  end.

(** [re.search(p, s)] *)
Definition search (p : regex) (s : str) : option Match :=
  match search_from p 0 s with
  | Some (b, (e, g)) =>
    Some {| m_string := s; m_start := b; m_end := e; m_group := g |}
  | None => None
  end.

(** [re.split(p, s)] for a pattern without a group that matches no empty
    string (the source passes [\s+]): the matches are found from the left
    and do not overlap.  [skip] counts the characters of a match still to
    pass, [cur] holds the current piece, reversed. *)
Fixpoint split_from (p : regex) (skip : nat) (pos : nat) (cur : str)
         (s : str) : list str :=
  match s with
  | [] => [rev cur]
  | a :: s' =>
    match skip with
    | S n => split_from p n (S pos) cur s'
    | O =>
      match exec p (0, 0) pos s with
      | Some (e, _) =>
        if pos <? e
        then rev cur :: split_from p (e - pos - 1) (S pos) [] s'
        else split_from p 0 (S pos) (a :: cur) s'
      | None => split_from p 0 (S pos) (a :: cur) s'
      end
    end
  end.

Definition split (p : regex) (s : str) : list str := split_from p 0 0 [] s.

(** The truth value of the result of [re.match]: [None] is false, a
    match object is true. *)
Definition truth (m : option Match) : bool :=
  match m with
  | Some _ => true
  | None => false
  end.

End Re.

(** ** The patterns of the source *)

(** [^\d+\s+mean\s*=\s*[\d.]+\s+max\s*=\s*[\d.]+] *)
Definition episode_re : Re.regex :=
  [Re.Bol; Re.Plus Re.Digit; Re.Plus Re.Space] ++ Re.word "mean"
  ++ [Re.Star Re.Space; Re.One (Re.Chr "="); Re.Star Re.Space;
      Re.Plus Re.DigitDot; Re.Plus Re.Space] ++ Re.word "max"
  ++ [Re.Star Re.Space; Re.One (Re.Chr "="); Re.Star Re.Space;
      Re.Plus Re.DigitDot].

(** [\s+] *)
Definition blanks_re : Re.regex := [Re.Plus Re.Space].

(** [mean\s*=\s*([\d.]+)] *)
Definition mean_re : Re.regex :=
  Re.word "mean"
  ++ [Re.Star Re.Space; Re.One (Re.Chr "="); Re.Star Re.Space;
      Re.GroupOpen; Re.Plus Re.DigitDot; Re.GroupClose].

(** [^\s*2048\s+[\d.]+%] *)
Definition prob_line_re : Re.regex :=
  [Re.Bol; Re.Star Re.Space] ++ Re.word "2048"
  ++ [Re.Plus Re.Space; Re.Plus Re.DigitDot; Re.One (Re.Chr "%")].

(** [2048\s+([\d.]+)%] *)
Definition prob_re : Re.regex :=
  Re.word "2048"
  ++ [Re.Plus Re.Space; Re.GroupOpen; Re.Plus Re.DigitDot; Re.GroupClose;
      Re.One (Re.Chr "%")].

(** ** [parse_2048_training_data] *)

(** An element of [means]: the first one is the [int] 0, the others are
    floats. *)
Inductive number :=
| Int (z : Z)
| Float (f : Py.binary64).

(** The four variables that the loop updates. *)
Record locals := Locals {
  metadata : gmap string str;
  episodes : list Z;
  means : list number;
  prob2048 : list Py.binary64
}.

(** The value returned: [metadata, episodes, means, prob2048]. *)
Definition output : Type :=
  gmap string str * list Z * list number * list Py.binary64.

Definition set_metadata (st : locals) (key : string) (v : str) : locals :=
  Locals (<[key := v]> (metadata st)) (episodes st) (means st) (prob2048 st).

Definition set_prob2048 (st : locals) (l : list Py.binary64) : locals :=
  Locals (metadata st) (episodes st) (means st) l.

Definition append_episode (st : locals) (episode : Z) (mean_score : Py.binary64)
  : locals :=
  Locals (metadata st) (episodes st ++ [episode])
         (means st ++ [Float mean_score]) (prob2048 st).

Definition zero : Py.binary64 := S754_zero false.

(** [metadata = {}], [episodes = [0]], [means = [0]], [prob2048 = [0.0]] *)
Definition initial : locals := Locals ∅ [0%Z] [Int 0] [zero].

Definition returned (st : locals) : output :=
  (metadata st, episodes st, means st, prob2048 st).

Section Parser.

(** The interpreter's limit on the digits of an [int] literal. *)
Variable int_max_str_digits : nat.

Section Body.

(** [re.search(r'mean\s*=\s*([\d.]+)', line)], the secondary search of
    an episode line.  The loop is written over it, so that what the
    branch [if mean_match:] does on either outcome can be stated. *)
Variable mean_search : str -> option Re.Match.

(** One pass of the loop body on [line = lines[i].strip()]. *)
Definition body_with (st : locals) (line : str) : result locals :=
  if Py.startswith line (lit "alpha = ") then
    v ← Py.getitem (Py.split line (lit " = ")) 1;
    OK (set_metadata st "alpha" v)
  else if Py.startswith line (lit "total = ") then
    v ← Py.getitem (Py.split line (lit " = ")) 1;
    OK (set_metadata st "total" v)
  else if Py.startswith line (lit "seed = ") then
    v ← Py.getitem (Py.split line (lit " = ")) 1;
    OK (set_metadata st "seed" v)
  else if Re.truth (Re.match_ episode_re line) then
    let parts := Re.split blanks_re line in
    let st := set_prob2048 st (prob2048 st ++ [zero]) in
    part ← Py.getitem parts 0;
    episode ← Py.int int_max_str_digits part;
    match mean_search line with
    | Some mean_match =>
      mean_score ← Py.float (Re.group1 mean_match);
      OK (append_episode st episode mean_score)
    | None => OK st
    end
  else if Re.truth (Re.match_ prob_line_re line) then
    match Re.search prob_re line with
    | Some prob_match =>
      prob ← Py.float (Re.group1 prob_match);
      l ← Py.set_last (prob2048 st) prob;
      OK (set_prob2048 st l)
    | None => OK st
    end
  else OK st.

(** The loop [while i < len(lines)] from position [i] on, [lines]
    being the lines that remain. *)
Fixpoint loop_with (lines : list str) (st : locals) : result locals :=
  match lines with
  | [] => OK st
  | l :: lines' =>
    st' ← body_with st (Py.strip l);
    loop_with lines' st'
  end.

Definition parse_with (data : str) : result output :=
  let lines := Py.split (Py.strip data) [Py.newline] in
  st ← loop_with lines initial;
  OK (returned st).

End Body.

Definition mean_search : str -> option Re.Match := Re.search mean_re.

Definition body : locals -> str -> result locals := body_with mean_search.

Definition loop : list str -> locals -> result locals :=
  loop_with mean_search.

Definition parse_2048_training_data : str -> result output :=
  parse_with mean_search.

(** *** The loop, step by step

    A configuration of the function: in the loop with the counter [i]
    and the locals, returned, or left by an exception. *)
Inductive config :=
| Running (lines : list str) (i : nat) (st : locals)
| Returned (out : output)
| Raised (e : exn).

Inductive step : config -> config -> Prop :=
| step_pass lines i st l st' :
    lines !! i = Some l ->
    body st (Py.strip l) = OK st' ->
    step (Running lines i st) (Running lines (S i) st')
| step_raise lines i st l e :
    lines !! i = Some l ->
    body st (Py.strip l) = Raise e ->
    step (Running lines i st) (Raised e)
| step_return lines i st :
    length lines <= i ->
    step (Running lines i st) (Returned (returned st)).

(** The configuration in which a call on [data] enters the loop. *)
Definition enter (data : str) : config :=
  Running (Py.split (Py.strip data) [Py.newline]) 0 initial.

(** The configuration that stands for a result of the function. *)
Definition config_of (r : result output) : config :=
  match r with
  | OK out => Returned out
  | Raise e => Raised e
  end.

End Parser.

(** ** [parse_2048_training_data] on the heap

    The dictionary and the three lists of the function are objects of the
    interpreter: the displays of lines 17 to 20 create them, the
    statements [metadata[...] = ...], [....append(...)] and
    [prob2048[-1] = prob] update them in place, and line 54 returns
    references to them.  Here the function runs on a heap of such
    objects, the state that one call leaves to the next.  Strings, ints
    and floats are immutable and stay values; so do [lines], [parts] and
    the match objects, which the function reads and neither updates nor
    returns. *)
Module Heap.

Definition loc := positive.

(** A dictionary from [str] to [str], or a list of numbers. *)
Inductive object :=
| Dict (d : gmap string str)
| List (l : list number).

Definition heap := gmap loc object.

(** A computation on the heap: the heap that it leaves and the value or
    the exception that ends it; [None] when it uses a reference to no
    object of the kind that the operation needs, which no state of a
    Python program contains. *)
Definition run (A : Type) : Type := heap -> option (heap * result A).

#[global] Instance run_ret : MRet run := fun A a h => Some (h, OK a).
#[global] Instance run_bind : MBind run := fun A B f m h =>
  match m h with
  | Some (h', OK a) => f a h'
  | Some (h', Raise e) => Some (h', Raise e)
  | None => None
  end.

(** An expression that does not touch the heap. *)
Definition lift {A} (r : result A) : run A := fun h => Some (h, r).

(** A display [{}] or [[x]]: a new object, at an address not in use. *)
Definition new (o : object) : run loc := fun h =>
  let l := fresh (dom h) in Some (<[l := o]> h, OK l).

(** [d[key] = v] *)
Definition setitem (d : loc) (key : string) (v : str) : run unit := fun h =>
  match h !! d with
  | Some (Dict m) => Some (<[d := Dict (<[key := v]> m)]> h, OK tt)
  | _ => None
  end.

(** [l.append(x)] *)
Definition append (l : loc) (x : number) : run unit := fun h =>
  match h !! l with
  | Some (List xs) => Some (<[l := List (xs ++ [x])]> h, OK tt)
  | _ => None
  end.

(** [l[-1] = x] *)
Definition set_last (l : loc) (x : number) : run unit := fun h =>
  match h !! l with
  | Some (List xs) =>
    match Py.set_last xs x with
    | OK xs' => Some (<[l := List xs']> h, OK tt)
    | Raise e => Some (h, Raise e)
    end
  | _ => None
  end.

(** What the variables [metadata], [episodes], [means] and [prob2048]
    are bound to. *)
Record refs := Refs {
  metadata_ref : loc;
  episodes_ref : loc;
  means_ref : loc;
  prob2048_ref : loc
}.

Section Parser.

Variable int_max_str_digits : nat.

(** One pass of the loop body, lines 24 to 50. *)
Definition body (r : refs) (line : str) : run unit :=
  if Py.startswith line (lit "alpha = ") then
    v ← lift (Py.getitem (Py.split line (lit " = ")) 1);
    setitem (metadata_ref r) "alpha" v
  else if Py.startswith line (lit "total = ") then
    v ← lift (Py.getitem (Py.split line (lit " = ")) 1);
    setitem (metadata_ref r) "total" v
  else if Py.startswith line (lit "seed = ") then
    v ← lift (Py.getitem (Py.split line (lit " = ")) 1);
    setitem (metadata_ref r) "seed" v
  else if Re.truth (Re.match_ episode_re line) then
    let parts := Re.split blanks_re line in
    _ ← append (prob2048_ref r) (Float zero);
    part ← lift (Py.getitem parts 0);
    episode ← lift (Py.int int_max_str_digits part);
    match mean_search line with
    | Some mean_match =>
      mean_score ← lift (Py.float (Re.group1 mean_match));
      _ ← append (episodes_ref r) (Int episode);
      append (means_ref r) (Float mean_score)
    | None => mret tt
    end
  else if Re.truth (Re.match_ prob_line_re line) then
    match Re.search prob_re line with
    | Some prob_match =>
      prob ← lift (Py.float (Re.group1 prob_match));
      set_last (prob2048_ref r) (Float prob)
    | None => mret tt
    end
  else mret tt.

Fixpoint loop (r : refs) (lines : list str) : run unit :=
  match lines with
  | [] => mret tt
  | l :: lines' =>
    _ ← body r (Py.strip l);
    loop r lines'
  end.

(** The function: lines 14 to 54. *)
Definition parse_2048_training_data (data : str) : run refs :=
  let lines := Py.split (Py.strip data) [Py.newline] in
  metadata ← new (Dict ∅);
  episodes ← new (List [Int 0]);
  means ← new (List [Int 0]);
  prob2048 ← new (List [Float zero]);
  let r := Refs metadata episodes means prob2048 in
  _ ← loop r lines;
  mret r.

End Parser.

(** The objects that four references lead to. *)
Definition objects : Type :=
  gmap string str * list number * list number * list number.

Definition contents (h : heap) (r : refs) : option objects :=
  match h !! metadata_ref r, h !! episodes_ref r,
        h !! means_ref r, h !! prob2048_ref r with
  | Some (Dict m), Some (List es), Some (List ms), Some (List ps) =>
    Some (m, es, ms, ps)
  | _, _, _, _ => None
  end.

(** What a caller finds of the result of a call: the objects behind the
    references returned, or the exception. *)
Definition value (h : heap) (r : result refs) : option (result objects) :=
  match r with
  | OK r => OK <$> contents h r
  | Raise e => Some (Raise e)
  end.

(** A result of the function on strings, as objects. *)
Definition of_output (r : result output) : result objects :=
  match r with
  | OK (m, es, ms, ps) => OK (m, Int <$> es, ms, Float <$> ps)
  | Raise e => Raise e
  end.

Definition refs_list (r : refs) : list loc :=
  [metadata_ref r; episodes_ref r; means_ref r; prob2048_ref r].

(** What holds of the heap [h] all along a call entered with the heap
    [h0]: the objects of [h0] are in [h] as they were, and the four
    references lead to four objects that were not in [h0], which hold the
    locals [st]. *)
Definition owns (h0 : heap) (r : refs) (st : locals) (h : heap) : Prop :=
  h0 ⊆ h
  /\ NoDup (refs_list r)
  /\ Forall (fun l => h0 !! l = None) (refs_list r)
  /\ h !! metadata_ref r = Some (Dict (metadata st))
  /\ h !! episodes_ref r = Some (List (Int <$> episodes st))
  /\ h !! means_ref r = Some (List (means st))
  /\ h !! prob2048_ref r = Some (List (Float <$> prob2048 st)).

(** A computation on the heap does what a computation on the locals
    does. *)
Definition refines (h0 : heap) (r : refs) (res : result locals)
           (out : option (heap * result unit)) : Prop :=
  exists h' st',
    owns h0 r st' h'
    /\ match res with
       | OK st1 => out = Some (h', OK tt) /\ st' = st1
       | Raise e => out = Some (h', Raise e)
       end.

End Heap.

(** ** The ticks of [plot_2048_training_results] *)

(** [min(l)] and [max(l)] of a list with first element [x]. *)
Definition py_min (x : Z) (l : list Z) : Z := fold_left Z.min l x.
Definition py_max (x : Z) (l : list Z) : Z := fold_left Z.max l x.

(** [x_min = int( min(episodes) // 1000 ) * 1000] and
    [x_max = int( max(episodes) // 1000 ) * 1000 + 1], the list being
    [e :: es]. *)
Definition x_min (e : Z) (es : list Z) : Z := (py_min e es / 1000 * 1000)%Z.
Definition x_max (e : Z) (es : list Z) : Z := (py_max e es / 1000 * 1000 + 1)%Z.

(** The block [if episodes: ... plt.xticks(x_ticks)] of either chart: the
    ticks handed to [plt.xticks], none when [episodes] is empty. *)
Definition x_ticks (episodes : list Z) : result (option (list Z)) :=
  match episodes with
  | [] => OK None
  | e :: es =>
    ticks ← Py.range (x_min e es) (x_max e es) ((x_max e es - x_min e es) / 10);
    OK (Some ticks)
  end.

(** What one chart is drawn from: the two series, the ticks and the lines
    of the text box. *)
Record chart := Chart {
  xs : list Z;
  ys : list number;
  xticks : option (list Z);
  info_text : list str
}.

Definition info (label key : string) (metadata : gmap string str) : list str :=
  match metadata !! key with
  | Some v => [lit label ++ v]
  | None => []
  end.

Definition chart_of (metadata : gmap string str) (episodes : list Z)
           (series : list number) : result chart :=
  ticks ← x_ticks episodes;
  OK (Chart episodes series ticks
            (info "Alpha: " "alpha" metadata ++ info "Total: " "total" metadata
             ++ info "Seed: " "seed" metadata)).

(** The two charts of [plot_2048_training_results], the first of the means
    and the second of the probabilities, as far as the function computes
    them itself; drawing and saving are matplotlib's. *)
Definition plot_2048_training_results (int_max_str_digits : nat) (data : str)
  : result (chart * chart) :=
  '(metadata, episodes, means, prob2048) ←
    parse_2048_training_data int_max_str_digits data;
  mean_chart ← chart_of metadata episodes means;
  prob_chart ← chart_of metadata episodes (Float <$> prob2048);
  OK (mean_chart, prob_chart).


(** ** What the statements below are about *)

(** The keys of the metadata and the prefix that announces each. *)
Definition keys : list string := ["alpha"; "total"; "seed"].

Definition prefix (key : string) : str := lit key ++ lit " = ".

(** The text of [s] before the first occurrence of [sep], all of [s] when
    there is none. *)
Fixpoint before_sep (sep s : str) : str :=
  match s with
  | [] => []
  | a :: s' => if Py.startswith s sep then [] else a :: before_sep sep s'
  end.

(** What a line that starts with the prefix of [key] stores under [key]:
    the text between the prefix and the next [" = "]. *)
Definition stored (key : string) (line : str) : option str :=
  if Py.startswith line (prefix key)
  then Some (before_sep (lit " = ") (drop (length (prefix key)) line))
  else None.

(** The lines of [data], each trimmed, as the loop reads them. *)
Definition lines_of (data : str) : list str :=
  Py.strip <$> Py.split (Py.strip data) [Py.newline].

(** The decimal digits that [s] starts with. *)
Fixpoint leading_digits (s : str) : str :=
  match s with
  | a :: s' => if Py.isdecimal a then a :: leading_digits s' else []
  | [] => []
  end.

Definition is_episode_line (line : str) : bool :=
  Re.truth (Re.match_ episode_re line).

Definition is_prob_line (line : str) : bool :=
  Re.truth (Re.match_ prob_line_re line).

(** The numbers of a line convert: the episode number is within the limit
    of [int] and the captured mean, or the captured probability, is a float
    literal. *)
Definition numbers_convert (int_max_str_digits : nat) (line : str) : bool :=
  if is_episode_line line then
    Py.within_limit int_max_str_digits (leading_digits line)
    && match mean_search line with
       | Some m => Py.float_literal (Re.group1 m)
       | None => true
       end
  else if is_prob_line line then
    match Re.search prob_re line with
    | Some m => Py.float_literal (Re.group1 m)
    | None => true
    end
  else true.

(** The episode lines on which a secondary search [search] finds nothing. *)
Definition search_fails (search : str -> option Re.Match) (line : str) : bool :=
  is_episode_line line
  && match search line with
     | Some _ => false
     | None => true
     end.

(** The branch of an episode line and the branch of a probability line,
    as the loop body runs them (lemma [body_with_cases] below); [parts[0]]
    is the number that the line starts with. *)
Definition episode_branch (int_max_str_digits : nat)
           (search : str -> option Re.Match) (st : locals) (line : str)
  : result locals :=
  let st := set_prob2048 st (prob2048 st ++ [zero]) in
  episode ← Py.int int_max_str_digits (leading_digits line);
  match search line with
  | Some mean_match =>
    mean_score ← Py.float (Re.group1 mean_match);
    OK (append_episode st episode mean_score)
  | None => OK st
  end.

Definition prob_branch (st : locals) (line : str) : result locals :=
  match Re.search prob_re line with
  | Some prob_match =>
    prob ← Py.float (Re.group1 prob_match);
    l ← Py.set_last (prob2048 st) prob;
    OK (set_prob2048 st l)
  | None => OK st
  end.

(** How many of [lines] are episode lines on which [search] finds
    nothing. *)
Definition failures (search : str -> option Re.Match) (lines : list str) : nat :=
  length (List.filter (search_fails search) lines).


(** A line that no branch of the loop body recognises. *)
Definition recognized (line : str) : bool :=
  existsb (fun key => Py.startswith line (prefix key)) keys
  || is_episode_line line || is_prob_line line.

(** The least and the greatest of [episodes] lie in the same block of a
    thousand. *)
Definition same_block (episodes : list Z) : bool :=
  match episodes with
  | [] => false
  | e :: es => (py_min e es / 1000 =? py_max e es / 1000)%Z
  end.

(** A string of digits and dots. *)
Definition digitdots (s : str) : Prop :=
  Forall (fun a => Re.mem Re.DigitDot a = true) s.

(** *** The words of the specification, for comparison *)
Module Spec.

(** "the substring after the first [" = "] separator" *)
Fixpoint after_first (sep s : str) : option str :=
  match s with
  | [] => None
  | _ :: s' =>
    if Py.startswith s sep then Some (drop (length sep) s)
    else after_first sep s'
  end.

(** "10 evenly spaced steps spanning from [floor(min/1000)*1000] to
    [floor(max/1000)*1000 + 1000]": the eleven values from the one to the
    other, a tenth of the way apart. *)
Definition x_ticks (episodes : list Z) : option (list Z) :=
  match episodes with
  | [] => None
  | e :: es =>
    let lo := (py_min e es / 1000 * 1000)%Z in
    let hi := (py_max e es / 1000 * 1000 + 1000)%Z in
    Some (map (fun i => (lo + Z.of_nat i * ((hi - lo) / 10))%Z) (seq 0 11))
  end.

End Spec.

(** ** [plot_2048_training_results], call by call

    The calls of [matplotlib.pyplot] that the function makes, in order,
    with the arguments that it computes; the styling arguments, which are
    constants, are left out. *)
Module Plt.

Inductive call :=
| figure                                   (* plt.figure(figsize=(12, 8)) *)
| plot (x : list Z) (y : list number)      (* plt.plot(x, y, 'b-', ...) *)
| xlabel (s : str)
| ylabel (s : str)
| title (s : str)
| grid                                     (* plt.grid(True, alpha=0.3) *)
| xticks (ticks : list Z)
| gca                                      (* plt.gca(), for its transAxes *)
| text (s : str)                           (* plt.text(0.02, 0.98, s, ...) *)
| tight_layout
| savefig (path : str)
| close.

End Plt.

(** [sep.join(l)] *)
Fixpoint join (sep : str) (l : list str) : str :=
  match l with
  | [] => []
  | [x] => x
  | x :: l' => x ++ sep ++ join sep l'
  end.

(** The truth value of [save_path]: [None] and the empty string are
    false. *)
Definition given (save_path : option str) : bool :=
  match save_path with
  | Some (_ :: _) => true
  | _ => false
  end.

Definition path_of (save_path : option str) : str := default [] save_path.

Section Calls.

(** What a call of matplotlib does is not the function's affair, and it
    may raise: [raises calls c] is the exception, if any, with which the
    call [c] ends when it is made after the calls [calls] have returned;
    [E] are the exceptions of matplotlib. *)
Variable E : Type.
Variable raises : list Plt.call -> Plt.call -> option E.

(** What ends the plotting function other than its return: an exception
    of the parser or of [range], or one that the call [c] raised. *)
Inductive failure :=
| Own (e : exn)
| Theirs (c : Plt.call) (x : E).

Inductive ended (A : Type) :=
| Returns (a : A)
| Raises (f : failure).

(** A computation that calls [plt]: from the calls that have returned so
    far, those that have returned after it and how it ends. *)
Definition plt (A : Type) : Type :=
  list Plt.call -> list Plt.call * ended A.

#[global] Instance plt_ret : MRet plt := fun A a calls => (calls, Returns A a).
#[global] Instance plt_bind : MBind plt := fun A B f m calls =>
  match m calls with
  | (calls', Returns _ a) => f a calls'
  | (calls', Raises _ x) => (calls', Raises B x)
  end.

Definition call_ (c : Plt.call) : plt unit := fun calls =>
  match raises calls c with
  | Some x => (calls, Raises unit (Theirs c x))
  | None => (calls ++ [c], Returns unit tt)
  end.

Definition lift {A} (r : result A) : plt A := fun calls =>
  match r with
  | OK a => (calls, Returns A a)
  | Raise e => (calls, Raises A (Own e))
  end.

(** One chart: lines 67 to 107, and lines 111 to 151 with another series,
    another label of the y-axis and another file. *)
Definition draw (metadata : gmap string str) (episodes : list Z)
           (series : list number) (label : string) (save_path : option str)
           (suffix : string) : plt unit :=
  _ ← call_ Plt.figure;
  _ ← call_ (Plt.plot episodes series);
  _ ← call_ (Plt.xlabel (lit "Episode"));
  _ ← call_ (Plt.ylabel (lit label));
  _ ← call_ (Plt.title (lit "TDL2048"));
  _ ← call_ Plt.grid;
  ticks ← lift (x_ticks episodes);
  _ ← match ticks with
      | Some ticks => call_ (Plt.xticks ticks)
      | None => mret tt
      end;
  let info_text :=
    info "Alpha: " "alpha" metadata ++ info "Total: " "total" metadata
    ++ info "Seed: " "seed" metadata in
  _ ← match info_text with
      | [] => mret tt
      | _ :: _ =>
        _ ← call_ Plt.gca;
        call_ (Plt.text (join [Py.newline] info_text))
      end;
  _ ← call_ Plt.tight_layout;
  if given save_path
  then call_ (Plt.savefig (path_of save_path ++ lit suffix))
  else mret tt.

Definition plot_calls (int_max_str_digits : nat) (data : str)
           (save_path : option str) : plt unit :=
  '(metadata, episodes, means, prob2048) ←
    lift (parse_2048_training_data int_max_str_digits data);
  _ ← draw metadata episodes means "Mean Score per Episode" save_path
           "-mean.png";
  _ ← call_ Plt.close;
  draw metadata episodes (Float <$> prob2048) "Probability of 2048-tile (%)"
       save_path "-2048.png".

End Calls.

Arguments Own {E} e.
Arguments Theirs {E} c x.
Arguments Returns {E A} a.
Arguments Raises {E A} f.
Arguments call_ {E} raises c calls.
Arguments lift {E A} r calls.
Arguments draw {E} raises metadata episodes series label save_path suffix calls.
Arguments plot_calls {E} raises int_max_str_digits data save_path calls.

(** The files that a sequence of calls saves. *)
Definition saved (calls : list Plt.call) : list str :=
  omap (fun c => match c with Plt.savefig path => Some path | _ => None end)
       calls.

(** The calls of a chart before its ticks are computed. *)
Definition opening (episodes : list Z) (series : list number) (label : string)
  : list Plt.call :=
  [Plt.figure; Plt.plot episodes series; Plt.xlabel (lit "Episode");
   Plt.ylabel (lit label); Plt.title (lit "TDL2048"); Plt.grid].

(** ** What the further statements are about *)

(** The episode number of an episode line, and the mean and the
    probability that a line states, when the captured text converts. *)
Definition episode_of (line : str) : Z := Py.digits_value (leading_digits line).

Definition float_of (m : option Re.Match) : option Py.binary64 :=
  match m with
  | Some m =>
    match Py.float (Re.group1 m) with
    | OK f => Some f
    | Raise _ => None
    end
  | None => None
  end.

Definition mean_of (line : str) : option Py.binary64 := float_of (mean_search line).

Definition prob_of (line : str) : option Py.binary64 :=
  float_of (Re.search prob_re line).

(** The probabilities computed with an accumulator instead of the update
    of the last element: [cur] is the probability of the record that is
    being built, closed by the next episode line or by the end. *)
Fixpoint tile_probabilities (cur : Py.binary64) (lines : list str)
  : option (list Py.binary64) :=
  match lines with
  | [] => Some [cur]
  | l :: lines' =>
    if is_episode_line l then cons cur <$> tile_probabilities zero lines'
    else if is_prob_line l then
      match prob_of l with
      | Some prob => tile_probabilities prob lines'
      | None => None
      end
    else tile_probabilities cur lines'
  end.

Definition is_metadata_line (line : str) : bool :=
  existsb (fun key => Py.startswith line (prefix key)) keys.

Definition is_number_line (line : str) : bool :=
  is_episode_line line || is_prob_line line.

(** The longest prefix of [s] made of characters of [f], and what comes
    after it. *)
Fixpoint run_of (f : ascii -> bool) (s : str) : str :=
  match s with
  | a :: s' => if f a then a :: run_of f s' else []
  | [] => []
  end.

Fixpoint past_run (f : ascii -> bool) (s : str) : str :=
  match s with
  | a :: s' => if f a then past_run f s' else s
  | [] => []
  end.

(** The number that an episode line gives as its mean, as text: the digits
    and dots found past the episode number, the blanks, the word [mean],
    the blanks, the sign [=] and the blanks. *)
Definition mean_text (line : str) : str :=
  run_of (Re.mem Re.DigitDot)
         (Py.lstrip (drop 1 (Py.lstrip (drop 4 (Py.lstrip
            (past_run Py.isdecimal line)))))).

(** The number that a probability line gives, as text: the digits and dots
    found past the blanks, [2048] and the blanks. *)
Definition prob_text (line : str) : str :=
  run_of (Re.mem Re.DigitDot) (Py.lstrip (drop 4 (Py.lstrip line))).

(** A float that is +0.0, a positive number or +inf: not negative and not
    a NaN. *)
Definition nonnegative (f : Py.binary64) : bool :=
  match f with
  | S754_zero false | S754_infinity false | S754_finite false _ _ => true
  | _ => false
  end.

Definition nonnegative_number (x : number) : bool :=
  match x with
  | Int z => (0 <=? z)%Z
  | Float f => nonnegative f
  end.

(** [sep in s]: [sep] occurs somewhere in [s]. *)
Fixpoint occurs (sep s : str) : bool :=
  match s with
  | [] => Py.startswith [] sep
  | _ :: s' => Py.startswith s sep || occurs sep s'
  end.

(** *** Inputs of the examples *)

(** A line feed and a tab, as strings. *)
Definition nl : string := String (ascii_of_nat 10) EmptyString.
Definition tab : string := String (ascii_of_nat 9) EmptyString.

(** A secondary search that finds nothing. *)
Definition no_search : str -> option Re.Match := fun _ => None.

(** A matplotlib of which the second [savefig] raises, and one of which no
    call raises. *)
Definition second_savefig_fails (calls : list Plt.call) (c : Plt.call)
  : option unit :=
  match c, saved calls with
  | Plt.savefig _, _ :: _ => Some tt
  | _, _ => None
  end.

Definition nothing_fails (calls : list Plt.call) (c : Plt.call)
  : option Empty_set := None.

(** * Facts *)

(** ** Character classes *)

Lemma digit_not_space a : Py.isdecimal a = true -> Py.isspace a = false.
Proof. destruct a as [[] [] [] [] [] [] [] []]; vm_compute; congruence. Qed.

Lemma digitdot_not_space a :
  Re.mem Re.DigitDot a = true -> Py.isspace a = false.
Proof. destruct a as [[] [] [] [] [] [] [] []]; vm_compute; congruence. Qed.

Lemma ascii_eqb_true a b : Ascii.eqb a b = true -> a = b.
Proof. apply Ascii.eqb_eq. Qed.

(** ** The matcher *)

Lemma greedy_sound {R} c (k : nat -> str -> option R) pos s r :
  Re.greedy c k pos s = Some r ->
  exists u t, s = u ++ t /\ Forall (fun a => Re.mem c a = true) u
              /\ k (pos + length u) t = Some r.
Proof.
  revert pos. induction s as [|a s IH]; intros pos H; simpl in H.
  - exists [], []. rewrite Nat.add_0_r. auto.
  - destruct (Re.mem c a) eqn:Ha.
    + destruct (Re.greedy c k (S pos) s) as [r'|] eqn:Hg.
      * injection H as ->. apply IH in Hg as (u & t & -> & Hu & Hk).
        exists (a :: u), t. repeat split; [by constructor|].
        rewrite <- Hk. f_equal. simpl. lia.
      * exists [], (a :: s). rewrite Nat.add_0_r. auto.
    + exists [], (a :: s). rewrite Nat.add_0_r. auto.
Qed.

Lemma greedy_complete {R} c (k : nat -> str -> option R) pos u t r :
  Forall (fun a => Re.mem c a = true) u ->
  k (pos + length u) t = Some r ->
  is_Some (Re.greedy c k pos (u ++ t)).
Proof.
  revert pos. induction u as [|a u IH]; intros pos Hu Hk; simpl in *.
  - rewrite Nat.add_0_r in Hk. destruct t as [|b t]; simpl; [eauto|].
    destruct (Re.mem c b); [|eauto].
    destruct (Re.greedy c k (S pos) t); eauto.
  - inversion Hu as [|? ? Ha Hu']; subst. rewrite Ha.
    destruct (IH (S pos) Hu') as [r' Hr'].
    { rewrite <- Hk. f_equal. lia. }
    rewrite Hr'. eauto.
Qed.

Lemma exec_sound p g pos s r :
  Re.exec p g pos s = Some r -> Re.matches p g pos s r.
Proof.
  revert g pos s. induction p as [|n p IH]; intros g pos s H; simpl in *.
  - congruence.
  - destruct n.
    + destruct (pos =? 0) eqn:Hp; [|done].
      apply Nat.eqb_eq in Hp. auto.
    + destruct s as [|a t]; [done|]. destruct (Re.mem c a) eqn:Ha; [|done].
      exists a, t. auto.
    + apply greedy_sound in H as (u & t & -> & Hu & Hk).
      exists u, t. auto.
    + destruct s as [|a t]; [done|]. destruct (Re.mem c a) eqn:Ha; [|done].
      apply greedy_sound in H as (u & t' & -> & Hu & Hk).
      exists a, u, t'. auto.
    + auto.
    + auto.
Qed.

Lemma exec_complete p g pos s r :
  Re.matches p g pos s r -> is_Some (Re.exec p g pos s).
Proof.
  revert g pos s. induction p as [|n p IH]; intros g pos s H; simpl in *.
  - eauto.
  - destruct n.
    + destruct H as [-> H]. simpl. eauto.
    + destruct H as (a & t & -> & Ha & H). rewrite Ha. eauto.
    + destruct H as (u & t & -> & Hu & H).
      apply IH in H as [r' Hr']. by eapply greedy_complete.
    + destruct H as (a & u & t & -> & Ha & Hu & H). rewrite Ha.
      apply IH in H as [r' Hr']. by eapply greedy_complete.
    + eauto.
    + eauto.
Qed.

Lemma search_from_sound p pos s b r :
  Re.search_from p pos s = Some (b, r) ->
  exists pre t, s = pre ++ t /\ b = pos + length pre
                /\ Re.exec p (0, 0) b t = Some r.
Proof.
  revert pos. induction s as [|a s IH]; intros pos H; simpl in H.
  - destruct (Re.exec p (0, 0) pos []) eqn:He; [|done].
    injection H as <- <-. exists [], []. rewrite Nat.add_0_r. auto.
  - destruct (Re.exec p (0, 0) pos (a :: s)) eqn:He.
    + injection H as <- <-. exists [], (a :: s). rewrite Nat.add_0_r. auto.
    + apply IH in H as (pre & t & -> & -> & H).
      exists (a :: pre), t. repeat split; [simpl; lia|].
      rewrite <- H. f_equal.
Qed.

Lemma search_from_complete p pos pre t :
  is_Some (Re.exec p (0, 0) (pos + length pre) t) ->
  is_Some (Re.search_from p pos (pre ++ t)).
Proof.
  revert pos. induction pre as [|a pre IH]; intros pos H; simpl in *.
  - rewrite Nat.add_0_r in H. destruct H as [r Hr].
    destruct t; simpl; rewrite Hr; eauto.
  - destruct (Re.exec p (0, 0) pos (a :: pre ++ t)); [eauto|].
    apply IH. by replace (S pos + length pre) with (pos + S (length pre)) by lia.
Qed.

Lemma match_sound p line :
  Re.truth (Re.match_ p line) = true ->
  exists r, Re.matches p (0, 0) 0 line r.
Proof.
  unfold Re.match_.
  destruct (Re.exec p (0, 0) 0 line) as [[e g]|] eqn:He; [|done].
  intros _. exists (e, g). by apply exec_sound.
Qed.

Lemma search_sound p line m :
  Re.search p line = Some m ->
  Re.m_string m = line
  /\ exists pre t, line = pre ++ t
       /\ Re.matches p (0, 0) (length pre) t (Re.m_end m, Re.m_group m).
Proof.
  unfold Re.search.
  destruct (Re.search_from p 0 line) as [[b [e g]]|] eqn:Hs; [|done].
  intros [= <-]. split; [done|].
  apply search_from_sound in Hs as (pre & t & -> & -> & He).
  exists pre, t. split; [done|]. by apply exec_sound.
Qed.

Lemma search_complete p pre t r :
  Re.matches p (0, 0) (length pre) t r -> is_Some (Re.search p (pre ++ t)).
Proof.
  intros H. apply exec_complete in H.
  apply (search_from_complete p 0 pre t) in H as [[b [e g]] Hs].
  unfold Re.search. rewrite Hs. eauto.
Qed.

Lemma take_drop_middle_app {A} (l1 l2 l3 : list A) a b :
  a = length l1 -> b = a + length l2 ->
  take (b - a) (drop a (l1 ++ l2 ++ l3)) = l2.
Proof.
  intros -> ->. rewrite drop_app_length.
  replace (length l1 + length l2 - length l1) with (length l2) by lia.
  by rewrite take_app_length.
Qed.

Lemma episode_line_mean_search line :
  Re.truth (Re.match_ episode_re line) = true -> is_Some (mean_search line).
Proof.
  intros H. apply match_sound in H as [r H]. cbn in H.
  destruct H as (_ & a & u & t & -> & Ha & Hu & w & ws & t0 & -> & Hw & Hws
                 & c1 & t1 & -> & E1 & c2 & t2 & -> & E2 & c3 & t3 & -> & E3
                 & c4 & t4 & -> & E4 & u1 & t5 & -> & Hu1 & c5 & t6 & -> & E5
                 & u2 & t7 & -> & Hu2 & d & u3 & t8 & -> & Hd & Hu3 & _).
  unfold mean_search.
  change (a :: u ++ w :: ws ++ ?x) with ((a :: u) ++ (w :: ws) ++ x).
  rewrite app_assoc.
  eapply search_complete. cbn.
  exists c1, (c2 :: c3 :: c4 :: u1 ++ c5 :: u2 ++ d :: u3 ++ t8).
  split; [done|]. split; [done|].
  do 3 (eexists _, _; split; [done|]; split; [done|]).
  exists u1, (c5 :: u2 ++ d :: u3 ++ t8). do 2 (split; [done|]).
  exists c5, (u2 ++ d :: u3 ++ t8). do 2 (split; [done|]).
  exists u2, (d :: u3 ++ t8). do 2 (split; [done|]).
  exists d, u3, t8. do 3 (split; [done|]). reflexivity.
Qed.

Lemma mean_search_group line m :
  mean_search line = Some m ->
  Re.group1 m <> [] /\ digitdots (Re.group1 m).
Proof.
  intros H. apply search_sound in H as (Hl & pre & t & -> & H).
  destruct (Re.m_group m) as [b e] eqn:Hg. cbn in H.
  destruct H as (c1 & t1 & -> & E1 & c2 & t2 & -> & E2 & c3 & t3 & -> & E3
                 & c4 & t4 & -> & E4 & u1 & t5 & -> & Hu1 & c5 & t6 & -> & E5
                 & u2 & t7 & -> & Hu2 & d & u3 & t8 & -> & Hd & Hu3 & H).
  injection H as _ -> ->.
  assert (Re.group1 m = d :: u3) as ->.
  { unfold Re.group1. rewrite Hl, Hg. simpl fst. simpl snd.
    replace (pre ++ c1 :: c2 :: c3 :: c4 :: u1 ++ c5 :: u2 ++ d :: u3 ++ t8)
      with ((pre ++ c1 :: c2 :: c3 :: c4 :: u1 ++ c5 :: u2) ++ (d :: u3) ++ t8)
      by (repeat first [rewrite <- app_assoc | progress simpl]; done).
    apply take_drop_middle_app.
    - rewrite !length_app. simpl. rewrite !length_app. simpl. lia.
    - simpl. lia. }
  split; [done|]. by constructor.
Qed.

Lemma prob_line_search line :
  is_prob_line line = true -> is_Some (Re.search prob_re line).
Proof.
  intros H. apply match_sound in H as [r H]. cbn in H.
  destruct H as (_ & u & t & -> & Hu & c1 & t1 & -> & E1 & c2 & t2 & -> & E2
                 & c3 & t3 & -> & E3 & c4 & t4 & -> & E4
                 & w & ws & t5 & -> & Hw & Hws & d & ds & t6 & -> & Hd & Hds
                 & c5 & t7 & -> & E5 & _).
  eapply search_complete. cbn.
  exists c1, (c2 :: c3 :: c4 :: w :: ws ++ d :: ds ++ c5 :: t7).
  do 2 (split; [done|]).
  do 3 (eexists _, _; split; [done|]; split; [done|]).
  exists w, ws, (d :: ds ++ c5 :: t7). do 3 (split; [done|]).
  exists d, ds, (c5 :: t7). do 3 (split; [done|]).
  exists c5, t7. do 2 (split; [done|]). reflexivity.
Qed.

Lemma prob_search_group line m :
  Re.search prob_re line = Some m ->
  Re.group1 m <> [] /\ digitdots (Re.group1 m).
Proof.
  intros H. apply search_sound in H as (Hl & pre & t & -> & H).
  destruct (Re.m_group m) as [b e] eqn:Hg. cbn in H.
  destruct H as (c1 & t1 & -> & E1 & c2 & t2 & -> & E2 & c3 & t3 & -> & E3
                 & c4 & t4 & -> & E4 & w & ws & t5 & -> & Hw & Hws
                 & d & ds & t6 & -> & Hd & Hds & c5 & t7 & -> & E5 & H).
  injection H as _ -> ->.
  assert (Re.group1 m = d :: ds) as ->.
  { unfold Re.group1. rewrite Hl, Hg. simpl fst. simpl snd.
    replace (pre ++ c1 :: c2 :: c3 :: c4 :: w :: ws ++ d :: ds ++ c5 :: t7)
      with ((pre ++ c1 :: c2 :: c3 :: c4 :: w :: ws) ++ (d :: ds) ++ c5 :: t7)
      by (repeat first [rewrite <- app_assoc | progress simpl]; done).
    apply take_drop_middle_app.
    - rewrite !length_app. simpl. lia.
    - simpl. lia. }
  split; [done|]. by constructor.
Qed.

(** Splitting at blanks *)

Lemma greedy_end {R} c (k : nat -> str -> option (nat * R)) pos s g :
  (forall pos s, k pos s = Some (pos, g)) ->
  exists e, Re.greedy c k pos s = Some (e, g) /\ pos <= e.
Proof.
  intros Hk. revert pos. induction s as [|a s IH]; intros pos; simpl.
  - eauto.
  - destruct (Re.mem c a); [|eauto].
    destruct (IH (S pos)) as (e & -> & He). exists e. split; [done|lia].
Qed.

Lemma split_blanks_head u a t pos cur :
  Forall (fun c => Py.isspace c = false) u -> Py.isspace a = true ->
  Re.split_from blanks_re 0 pos cur (u ++ a :: t) !! 0 = Some (rev cur ++ u).
Proof.
  revert pos cur. induction u as [|c u IH]; intros pos cur Hu Ha.
  - simpl. rewrite Ha.
    match goal with
    | |- context [Re.greedy ?c ?k ?p ?s] =>
      destruct (greedy_end c k p s (0, 0)) as (e & -> & Hle); [done|]
    end.
    replace (pos <? e) with true by (symmetry; apply Nat.ltb_lt; lia).
    simpl. by rewrite app_nil_r.
  - inversion Hu as [|? ? Hc Hu']; subst. simpl. rewrite Hc.
    rewrite IH by done. simpl. by rewrite <- app_assoc.
Qed.

Lemma leading_digits_app u a t :
  Forall (fun c => Py.isdecimal c = true) u -> Py.isdecimal a = false ->
  leading_digits (u ++ a :: t) = u.
Proof.
  induction 1 as [|c u Hc Hu IH]; intros Ha; simpl.
  - by rewrite Ha.
  - rewrite Hc. by rewrite IH.
Qed.

Lemma space_not_digit a : Py.isspace a = true -> Py.isdecimal a = false.
Proof.
  intros H. destruct (Py.isdecimal a) eqn:Hd; [|done].
  apply digit_not_space in Hd. congruence.
Qed.

Lemma forallb_true_Forall {A} (f : A -> bool) l :
  forallb f l = true <-> Forall (fun x => f x = true) l.
Proof.
  induction l as [|x l IH]; simpl.
  - split; [constructor|done].
  - rewrite andb_true_iff, IH. split.
    + intros [? ?]. by constructor.
    + by inversion 1.
Qed.

(** [parts[0]] of an episode line is the number that the line starts with. *)
Lemma parts0_digits line :
  is_episode_line line = true ->
  Re.split blanks_re line !! 0 = Some (leading_digits line)
  /\ leading_digits line <> []
  /\ forallb Py.isdecimal (leading_digits line) = true.
Proof.
  intros H. apply match_sound in H as [r H]. cbn in H.
  destruct H as (_ & a & u & t & -> & Ha & Hu & w & ws & t0 & -> & Hw & _).
  assert (Forall (fun c => Py.isdecimal c = true) (a :: u)) as Hd by by constructor.
  change (a :: u ++ w :: ws ++ t0) with ((a :: u) ++ w :: ws ++ t0).
  rewrite leading_digits_app by auto using space_not_digit.
  split; [|split; [done|]].
  - unfold Re.split. rewrite split_blanks_head; [done| |done].
    eapply Forall_impl; [exact Hd|]. intros c. apply digit_not_space.
  - by apply forallb_true_Forall.
Qed.
(** ** [startswith] and [split] *)

Lemma startswith_app s p :
  Py.startswith s p = true -> s = p ++ drop (length p) s.
Proof.
  revert s. induction p as [|c p IH]; intros s H.
  - by rewrite drop_0.
  - destruct s as [|a s]; [done|]. cbn [Py.startswith] in H.
    destruct (Ascii.eqb a c) eqn:E; [|done].
    apply Ascii.eqb_eq in E as ->. simpl. f_equal. by apply IH.
Qed.

Lemma split_from_head sep cur s :
  Py.split_from sep 0 cur s !! 0 = Some (rev cur ++ before_sep sep s).
Proof.
  revert cur. induction s as [|a s IH]; intros cur.
  - simpl. by rewrite app_nil_r.
  - cbn [Py.split_from before_sep].
    destruct (Py.startswith (a :: s) sep).
    + simpl. by rewrite app_nil_r.
    + rewrite IH. simpl. by rewrite <- app_assoc.
Qed.

Lemma split_prefix key r :
  key ∈ keys ->
  Py.split (prefix key ++ r) (lit " = ") = lit key :: Py.split r (lit " = ").
Proof.
  unfold keys. rewrite !elem_of_cons, elem_of_nil.
  intros [->|[->|[->|[]]]]; reflexivity.
Qed.

Lemma stored_getitem key line v :
  key ∈ keys -> stored key line = Some v ->
  Py.getitem (Py.split line (lit " = ")) 1 = OK v.
Proof.
  unfold stored. intros Hk H.
  destruct (Py.startswith line (prefix key)) eqn:Hp; [|done].
  injection H as <-. apply startswith_app in Hp.
  rewrite Hp at 1. rewrite split_prefix by done.
  unfold Py.getitem, Py.split. cbn [lookup list_lookup].
  change (?l !! 0) with (l !! 0).
  by rewrite split_from_head.
Qed.

(** ** The loop body, case by case *)

Lemma elem_of_keys key :
  key ∈ keys <-> key = "alpha"%string \/ key = "total"%string \/ key = "seed"%string.
Proof. unfold keys. rewrite !elem_of_cons, elem_of_nil. tauto. Qed.

Lemma stored_prefix key line v :
  stored key line = Some v -> exists r, line = prefix key ++ r.
Proof.
  unfold stored. destruct (Py.startswith line (prefix key)) eqn:Hp; [|done].
  intros _. apply startswith_app in Hp. eauto.
Qed.

Lemma metadata_not_numbers key line v :
  key ∈ keys -> stored key line = Some v ->
  is_episode_line line = false /\ is_prob_line line = false.
Proof.
  intros Hk H. apply stored_prefix in H as [r ->].
  apply elem_of_keys in Hk as [->|[->| ->]]; split; reflexivity.
Qed.

Lemma stored_exclusive key key' line v :
  key ∈ keys -> key' ∈ keys -> key <> key' ->
  stored key line = Some v -> stored key' line = None.
Proof.
  intros Hk Hk' Hne H. apply stored_prefix in H as [r ->].
  apply elem_of_keys in Hk as [->|[->| ->]];
    apply elem_of_keys in Hk' as [->|[->| ->]]; done.
Qed.

Section Cases.

Variable lim : nat.
Variable search : str -> option Re.Match.

Lemma body_with_cases (P : result locals -> Prop) st line :
  (forall key v, key ∈ keys -> stored key line = Some v ->
                 P (OK (set_metadata st key v))) ->
  ((forall key, key ∈ keys -> stored key line = None) ->
   is_episode_line line = true -> P (episode_branch lim search st line)) ->
  ((forall key, key ∈ keys -> stored key line = None) ->
   is_episode_line line = false -> is_prob_line line = true ->
   P (prob_branch st line)) ->
  ((forall key, key ∈ keys -> stored key line = None) ->
   is_episode_line line = false -> is_prob_line line = false -> P (OK st)) ->
  P (body_with lim search st line).
Proof.
  intros Hmeta Hep Hprob Hother. unfold body_with.
  change (lit "alpha = ") with (prefix "alpha").
  change (lit "total = ") with (prefix "total").
  change (lit "seed = ") with (prefix "seed").
  assert (forall key, key ∈ keys -> Py.startswith line (prefix key) = true ->
            P (Py.getitem (Py.split line (lit " = ")) 1
                 ≫= λ v : str, OK (set_metadata st key v))) as Hkey.
  { intros key Hk Hp.
    assert (stored key line
            = Some (before_sep (lit " = ") (drop (length (prefix key)) line)))
      as Hs by (unfold stored; by rewrite Hp).
    rewrite (stored_getitem _ _ _ Hk Hs). by apply Hmeta. }
  destruct (Py.startswith line (prefix "alpha")) eqn:Ha;
    [apply Hkey; [apply elem_of_keys; auto|done]|].
  destruct (Py.startswith line (prefix "total")) eqn:Ht;
    [apply Hkey; [apply elem_of_keys; auto|done]|].
  destruct (Py.startswith line (prefix "seed")) eqn:Hs;
    [apply Hkey; [apply elem_of_keys; auto|done]|].
  assert (forall key, key ∈ keys -> stored key line = None) as Hnone.
  { intros key [->|[->| ->]]%elem_of_keys; unfold stored;
      by rewrite ?Ha, ?Ht, ?Hs. }
  fold (is_episode_line line). fold (is_prob_line line).
  destruct (is_episode_line line) eqn:He.
  - destruct (parts0_digits line He) as (Hparts & _ & _).
    unfold Py.getitem. rewrite Hparts. by apply Hep.
  - destruct (is_prob_line line) eqn:Hp; auto.
Qed.

End Cases.

(** ** What one pass of the body does to the locals *)

Lemma set_last_length {A} (l l' : list A) x :
  Py.set_last l x = OK l' -> length l' = length l /\ l <> [].
Proof.
  unfold Py.set_last. destruct l as [|a l]; [done|].
  intros [= <-]. by rewrite length_insert.
Qed.

Lemma set_last_ok {A} (l : list A) x :
  l <> [] -> exists l', Py.set_last l x = OK l'.
Proof. destruct l; [done|]. simpl. eauto. Qed.

Lemma int_leading_digits lim line :
  is_episode_line line = true ->
  Py.int lim (leading_digits line)
  = if Py.within_limit lim (leading_digits line)
    then OK (Py.digits_value (leading_digits line)) else Raise ValueError.
Proof.
  intros (_ & Hne & Hd)%parts0_digits. unfold Py.int.
  destruct (leading_digits line); [done|]. by rewrite Hd.
Qed.

Lemma int_raises lim s e : Py.int lim s = Raise e -> e = ValueError.
Proof.
  unfold Py.int. destruct s; [congruence|].
  destruct (_ && _); congruence.
Qed.

Lemma float_raises s e : Py.float s = Raise e -> e = ValueError.
Proof. unfold Py.float. destruct (Py.float_literal s); congruence. Qed.

#[local] Ltac bind_cases H :=
  repeat match type of H with
         | context [mbind _ ?r] => destruct r eqn:?; simpl in H
         | context [match ?o with Some _ => _ | None => _ end] =>
           destruct o eqn:?; simpl in H
         end.

Section Pass.

Variable lim : nat.
Variable search : str -> option Re.Match.

Lemma body_with_lengths st line st' :
  body_with lim search st line = OK st' ->
  length (means st') + length (episodes st)
  = length (means st) + length (episodes st')
  /\ length (prob2048 st') + length (episodes st)
     = length (prob2048 st) + length (episodes st')
       + (if search_fails search line then 1 else 0).
Proof.
  revert st'. apply body_with_cases.
  - intros key v Hk Hs st' [= <-].
    destruct (metadata_not_numbers _ _ _ Hk Hs) as [He _].
    unfold search_fails. rewrite He. simpl. lia.
  - intros _ He st' H. unfold episode_branch, search_fails in *.
    rewrite He. bind_cases H; try done; injection H as <-; simpl;
      rewrite ?length_app; simpl; lia.
  - intros _ He Hp st' H. unfold prob_branch, search_fails in *.
    rewrite He. bind_cases H; try done; injection H as <-; simpl; try lia.
    match goal with
    | H : Py.set_last _ _ = OK _ |- _ => apply set_last_length in H as [-> _]
    end. lia.
  - intros _ He _ st' [= <-]. unfold search_fails. rewrite He. simpl. lia.
Qed.

Lemma body_with_prob2048 st line st' :
  body_with lim search st line = OK st' ->
  prob2048 st <> [] -> prob2048 st' <> [].
Proof.
  revert st'. apply body_with_cases.
  - by intros key v _ _ st' [= <-].
  - intros _ _ st' H Hne. unfold episode_branch in H.
    bind_cases H; try done; injection H as <-; simpl;
      by destruct (prob2048 st).
  - intros _ _ _ st' H Hne. unfold prob_branch in H.
    bind_cases H; try done; injection H as <-; simpl; [|done].
    match goal with
    | H : Py.set_last _ _ = OK ?l |- _ =>
      apply set_last_length in H as [Hl _]; destruct l; [|done];
        by destruct (prob2048 st)
    end.
  - by intros _ _ _ st' [= <-].
Qed.


Lemma body_with_raises st line e :
  body_with lim search st line = Raise e ->
  prob2048 st <> [] -> e = ValueError.
Proof.
  revert e. apply body_with_cases.
  - done.
  - intros _ _ e H _. unfold episode_branch in H.
    bind_cases H; try done; injection H as <-;
      eauto using int_raises, float_raises.
  - intros _ _ _ e H Hne. unfold prob_branch in H.
    bind_cases H; try done; injection H as <-;
      eauto using float_raises.
    match goal with
    | H : Py.set_last _ ?x = Raise _ |- _ =>
      destruct (set_last_ok (prob2048 st) x Hne) as [l' Hl']; congruence
    end.
  - done.
Qed.

Lemma body_with_metadata key st line st' :
  key ∈ keys ->
  body_with lim search st line = OK st' ->
  metadata st' !! key
  = match stored key line with
    | Some v => Some v
    | None => metadata st !! key
    end.
Proof.
  intros Hk. revert st'. apply body_with_cases.
  - intros key' v Hk' Hs st' [= <-]. simpl.
    destruct (decide (key' = key)) as [->|Hne].
    + by rewrite Hs, lookup_insert_eq.
    + rewrite (stored_exclusive key' key line v) by done.
      by rewrite lookup_insert_ne.
  - intros Hnone _ st' H. rewrite Hnone by done.
    unfold episode_branch in H. bind_cases H; try done; by injection H as <-.
  - intros Hnone _ _ st' H. rewrite Hnone by done.
    unfold prob_branch in H. bind_cases H; try done; by injection H as <-.
  - intros Hnone _ _ st' [= <-]. by rewrite Hnone.
Qed.

End Pass.

(** ** The loop *)

Section Loop.

Variable lim : nat.
Variable search : str -> option Re.Match.

Lemma body_with_episodes st line st' :
  body_with lim search st line = OK st' ->
  length (episodes st) <= length (episodes st').
Proof.
  revert st'. apply body_with_cases.
  - by intros key v _ _ st' [= <-].
  - intros _ _ st' H. unfold episode_branch in H.
    bind_cases H; try done; injection H as <-; simpl;
      rewrite ?length_app; lia.
  - intros _ _ _ st' H. unfold prob_branch in H.
    bind_cases H; try done; by injection H as <-.
  - by intros _ _ _ st' [= <-].
Qed.

Lemma loop_with_cons l lines st :
  loop_with lim search (l :: lines) st
  = body_with lim search st (Py.strip l) ≫= loop_with lim search lines.
Proof. reflexivity. Qed.

Lemma failures_cons line lines :
  failures search (line :: lines)
  = (if search_fails search line then 1 else 0) + failures search lines.
Proof. unfold failures. simpl. by destruct (search_fails search line). Qed.

Lemma loop_with_lengths lines st st' :
  loop_with lim search lines st = OK st' ->
  length (episodes st) <= length (episodes st')
  /\ length (means st') + length (episodes st)
     = length (means st) + length (episodes st')
  /\ length (prob2048 st') + length (episodes st)
     = length (prob2048 st) + length (episodes st')
       + failures search (Py.strip <$> lines).
Proof.
  revert st. induction lines as [|l lines IH]; intros st H.
  - injection H as <-. unfold failures. simpl. lia.
  - rewrite loop_with_cons in H.
    destruct (body_with lim search st (Py.strip l)) as [st1|] eqn:Hb; [|done].
    simpl in H. apply IH in H as (H1 & H2 & H3).
    pose proof (body_with_episodes _ _ _ Hb).
    apply body_with_lengths in Hb as [H4 H5].
    rewrite fmap_cons, failures_cons. lia.
Qed.

Lemma loop_with_prob2048 lines st st' :
  loop_with lim search lines st = OK st' ->
  prob2048 st <> [] -> prob2048 st' <> [].
Proof.
  revert st. induction lines as [|l lines IH]; intros st H Hne.
  - by injection H as <-.
  - rewrite loop_with_cons in H.
    destruct (body_with lim search st (Py.strip l)) as [st1|] eqn:Hb; [|done].
    eapply IH; [exact H|]. by eapply body_with_prob2048.
Qed.

Lemma loop_with_raises lines st e :
  loop_with lim search lines st = Raise e ->
  prob2048 st <> [] -> e = ValueError.
Proof.
  revert st. induction lines as [|l lines IH]; intros st H Hne; [done|].
  rewrite loop_with_cons in H.
  destruct (body_with lim search st (Py.strip l)) as [st1|e1] eqn:Hb.
  - eapply IH; [exact H|]. by eapply body_with_prob2048.
  - injection H as <-. by eapply body_with_raises.
Qed.

Lemma loop_with_metadata key lines st st' :
  key ∈ keys ->
  loop_with lim search lines st = OK st' ->
  metadata st' !! key
  = match last (omap (stored key) (Py.strip <$> lines)) with
    | Some v => Some v
    | None => metadata st !! key
    end.
Proof.
  intros Hk. revert st. induction lines as [|l lines IH]; intros st H.
  - by injection H as <-.
  - rewrite loop_with_cons in H.
    destruct (body_with lim search st (Py.strip l)) as [st1|] eqn:Hb; [|done].
    simpl in H. rewrite (IH _ H).
    rewrite (body_with_metadata _ _ key _ _ _ Hk Hb).
    rewrite fmap_cons. simpl.
    destruct (stored key (Py.strip l)) as [v|]; [|done].
    rewrite last_cons. by destruct (last _).
Qed.

Lemma parse_with_loop data out :
  parse_with lim search data = OK out ->
  exists st, loop_with lim search (Py.split (Py.strip data) [Py.newline]) initial
             = OK st /\ out = returned st.
Proof.
  unfold parse_with.
  destruct (loop_with lim search _ initial) as [st|]; [|done].
  intros [= <-]. eauto.
Qed.

Lemma parse_with_raises data e :
  parse_with lim search data = Raise e -> e = ValueError.
Proof.
  unfold parse_with.
  destruct (loop_with lim search _ initial) as [st|e'] eqn:Hl; [done|].
  intros [= <-]. by eapply loop_with_raises.
Qed.

End Loop.

(** ** When the function returns *)

Section Returns.

Variable lim : nat.

Lemma body_returns st line :
  prob2048 st <> [] ->
  (exists st', body lim st line = OK st') <-> numbers_convert lim line = true.
Proof.
  intros Hne. unfold body. apply body_with_cases.
  - intros key v Hk Hs.
    destruct (metadata_not_numbers _ _ _ Hk Hs) as [He Hp].
    unfold numbers_convert. rewrite He, Hp. split; eauto.
  - intros _ He. unfold episode_branch, numbers_convert.
    rewrite He, int_leading_digits by done.
    destruct (Py.within_limit lim (leading_digits line)); simpl.
    2: { split; [intros [st' H]; discriminate H|discriminate]. }
    destruct (mean_search line) as [m|]; [|split; eauto].
    unfold Py.float. destruct (Py.float_literal (Re.group1 m)); simpl;
      split; eauto; try discriminate; intros [st' H]; discriminate H.
  - intros _ He Hp. unfold prob_branch, numbers_convert. rewrite He, Hp.
    destruct (Re.search prob_re line) as [m|]; [|split; eauto].
    unfold Py.float. destruct (Py.float_literal (Re.group1 m)); simpl;
      [|split; [intros [st' H]; discriminate H|discriminate]].
    destruct (set_last_ok (prob2048 st)
                (Py.decimal_to_binary64
                   (Py.digits_value
                      (filter (fun a => Py.isdecimal a = true) (Re.group1 m)))
                   (length (filter (fun a => Py.isdecimal a = true)
                                   (Py.after_dot (Re.group1 m))))) Hne)
      as [l ->].
    simpl. split; eauto.
  - intros _ He Hp. unfold numbers_convert. rewrite He, Hp. split; eauto.
Qed.

Lemma loop_returns lines st :
  prob2048 st <> [] ->
  (exists st', loop lim lines st = OK st')
  <-> Forall (fun line => numbers_convert lim line = true) (Py.strip <$> lines).
Proof.
  revert st. induction lines as [|l lines IH]; intros st Hne.
  - simpl. split; [constructor|eauto].
  - unfold loop. rewrite loop_with_cons, fmap_cons, Forall_cons.
    rewrite <- (body_returns st) by done. fold (body lim) (loop lim).
    destruct (body lim st (Py.strip l)) as [st1|e] eqn:Hb; simpl.
    + rewrite IH by (by eapply body_with_prob2048). split; [eauto|tauto].
    + split; [intros [st' H]; discriminate H|intros [[st' H] _]; discriminate H].
Qed.

Lemma parse_returns data :
  (exists out, parse_2048_training_data lim data = OK out)
  <-> Forall (fun line => numbers_convert lim line = true) (lines_of data).
Proof.
  unfold lines_of. rewrite <- (loop_returns _ initial) by done.
  unfold parse_2048_training_data, parse_with. fold (loop lim).
  destruct (loop lim _ initial) as [st|e]; simpl; split; eauto;
    try discriminate; intros [st' H]; discriminate H.
Qed.

End Returns.

(** ** The loop, step by step *)

Section Steps.

Variable lim : nat.

Lemma run_loop lines rest i st :
  drop i lines = rest ->
  rtc (step lim) (Running lines i st)
      (match loop lim rest st with
       | OK st' => Returned (returned st')
       | Raise e => Raised e
       end).
Proof.
  revert i st. induction rest as [|l rest IH]; intros i st Hd.
  - simpl. apply rtc_once, step_return.
    by apply drop_nil_inv.
  - assert (lines !! i = Some l) as Hl.
    { rewrite <- (Nat.add_0_r i), <- lookup_drop, Hd. done. }
    unfold loop. rewrite loop_with_cons. fold (body lim) (loop lim).
    destruct (body lim st (Py.strip l)) as [st1|e] eqn:Hb; simpl.
    + eapply rtc_l; [by eapply step_pass|]. apply IH.
      erewrite drop_S in Hd by done. by injection Hd.
    + apply rtc_once. by eapply step_raise.
Qed.

Lemma run_parse data :
  rtc (step lim) (enter data) (config_of (parse_2048_training_data lim data)).
Proof.
  unfold enter, parse_2048_training_data, parse_with. fold (loop lim).
  pose proof (run_loop (Py.split (Py.strip data) [Py.newline]) _ 0 initial
                       eq_refl) as H.
  rewrite drop_0 in H.
  by destruct (loop lim _ initial).
Qed.



End Steps.

(** ** The function on the heap *)

Lemma run_bind_ok {A B} (m : Heap.run A) (f : A -> Heap.run B) h h' a :
  m h = Some (h', OK a) -> (m ≫= f) h = f a h'.
Proof. intros H. unfold mbind, Heap.run_bind. by rewrite H. Qed.

Lemma run_bind_raise {A B} (m : Heap.run A) (f : A -> Heap.run B) h h' e :
  m h = Some (h', Raise e) -> (m ≫= f) h = Some (h', Raise e).
Proof. intros H. unfold mbind, Heap.run_bind. by rewrite H. Qed.

Lemma run_bind_lift {A B} (a : A) (f : A -> Heap.run B) h :
  (Heap.lift (OK a) ≫= f) h = f a h.
Proof. reflexivity. Qed.

Lemma new_fresh o (h : Heap.heap) :
  exists l, Heap.new o h = Some (<[l := o]> h, OK l) /\ h !! l = None.
Proof.
  eexists. split; [reflexivity|]. apply not_elem_of_dom, is_fresh.
Qed.

Lemma refs_distinct r :
  NoDup (Heap.refs_list r) ->
  Heap.metadata_ref r <> Heap.episodes_ref r
  /\ Heap.metadata_ref r <> Heap.means_ref r
  /\ Heap.metadata_ref r <> Heap.prob2048_ref r
  /\ Heap.episodes_ref r <> Heap.means_ref r
  /\ Heap.episodes_ref r <> Heap.prob2048_ref r
  /\ Heap.means_ref r <> Heap.prob2048_ref r.
Proof.
  unfold Heap.refs_list.
  rewrite !NoDup_cons, !not_elem_of_cons. tauto.
Qed.

Lemma refs_outside (h0 : Heap.heap) r :
  Forall (fun l => h0 !! l = None) (Heap.refs_list r) ->
  h0 !! Heap.metadata_ref r = None /\ h0 !! Heap.episodes_ref r = None
  /\ h0 !! Heap.means_ref r = None /\ h0 !! Heap.prob2048_ref r = None.
Proof.
  unfold Heap.refs_list. rewrite !Forall_cons. tauto.
Qed.

#[local] Ltac owns_after :=
  repeat split; simpl; try done; unfold Heap.heap, Heap.loc in *;
  first [ by apply insert_subseteq_r
        | by rewrite lookup_insert_eq, ?fmap_app
        | by rewrite lookup_insert_ne
        | idtac ].

#[local] Ltac owns_before Ho :=
  let Hnd := fresh "Hnd" in
  let Hfr := fresh "Hfr" in
  destruct Ho as (Hsub & Hnd & Hfr & Hm & He & Hmn & Hp);
  pose proof (refs_distinct _ Hnd) as (? & ? & ? & ? & ? & ?);
  pose proof (refs_outside _ _ Hfr) as (? & ? & ? & ?).

Section Owns.

Variables (h0 : Heap.heap) (r : Heap.refs) (st : locals) (h : Heap.heap).
Hypothesis Ho : Heap.owns h0 r st h.

Lemma setitem_owns key v :
  exists h',
    Heap.setitem (Heap.metadata_ref r) key v h = Some (h', OK tt)
    /\ Heap.owns h0 r (set_metadata st key v) h'.
Proof.
  owns_before Ho.
  unfold Heap.setitem. rewrite Hm. eexists. split; [reflexivity|].
  owns_after.
Qed.

Lemma append_prob2048_owns x :
  exists h',
    Heap.append (Heap.prob2048_ref r) (Float x) h = Some (h', OK tt)
    /\ Heap.owns h0 r (set_prob2048 st (prob2048 st ++ [x])) h'.
Proof.
  owns_before Ho.
  unfold Heap.append. rewrite Hp. eexists. split; [reflexivity|].
  owns_after.
Qed.

Lemma append_episodes_owns e :
  exists h',
    Heap.append (Heap.episodes_ref r) (Int e) h = Some (h', OK tt)
    /\ Heap.owns h0 r (Locals (metadata st) (episodes st ++ [e]) (means st)
                              (prob2048 st)) h'.
Proof.
  owns_before Ho.
  unfold Heap.append. rewrite He. eexists. split; [reflexivity|].
  owns_after.
Qed.

Lemma append_means_owns x :
  exists h',
    Heap.append (Heap.means_ref r) x h = Some (h', OK tt)
    /\ Heap.owns h0 r (Locals (metadata st) (episodes st) (means st ++ [x])
                              (prob2048 st)) h'.
Proof.
  owns_before Ho.
  unfold Heap.append. rewrite Hmn. eexists. split; [reflexivity|].
  owns_after.
Qed.

Lemma set_last_owns x :
  match Py.set_last (prob2048 st) x with
  | OK l =>
    exists h',
      Heap.set_last (Heap.prob2048_ref r) (Float x) h = Some (h', OK tt)
      /\ Heap.owns h0 r (set_prob2048 st l) h'
  | Raise e =>
    Heap.set_last (Heap.prob2048_ref r) (Float x) h = Some (h, Raise e)
  end.
Proof.
  owns_before Ho.
  unfold Heap.set_last. rewrite Hp.
  unfold Py.set_last. destruct (prob2048 st) as [|p ps]; [done|].
  simpl. eexists. split; [reflexivity|].
  owns_after.
  rewrite lookup_insert_eq. do 2 f_equal.
  rewrite length_fmap. by rewrite list_fmap_insert.
Qed.

End Owns.

#[local] Ltac stops_with Ho :=
  eexists _, _; split; [exact Ho|first [reflexivity|split; reflexivity]].

Section Refines.

Variable lim : nat.
Variables (h0 : Heap.heap) (r : Heap.refs).

Lemma setitem_refines st h key (v : result str) :
  Heap.owns h0 r st h ->
  Heap.refines h0 r (v ≫= λ v, OK (set_metadata st key v))
               ((Heap.lift v ≫= Heap.setitem (Heap.metadata_ref r) key) h).
Proof.
  intros Ho. destruct v as [v|e].
  - destruct (setitem_owns _ _ _ _ Ho key v) as (h' & Hs & Ho').
    exists h', (set_metadata st key v).
    split; [exact Ho'|]. split; [exact Hs|reflexivity].
  - exists h, st. split; [exact Ho|reflexivity].
Qed.

Lemma body_refines st h line :
  Heap.owns h0 r st h ->
  Heap.refines h0 r (body lim st line) (Heap.body lim r line h).
Proof.
  intros Ho. unfold body, body_with, Heap.body.
  destruct (Py.startswith line (lit "alpha = ")); [by apply setitem_refines|].
  destruct (Py.startswith line (lit "total = ")); [by apply setitem_refines|].
  destruct (Py.startswith line (lit "seed = ")); [by apply setitem_refines|].
  destruct (Re.truth (Re.match_ episode_re line)).
  - destruct (append_prob2048_owns _ _ _ _ Ho zero) as (h1 & Ha & Ho1).
    rewrite (run_bind_ok _ _ _ _ _ Ha). cbv zeta.
    destruct (Py.getitem (Re.split blanks_re line) 0) as [part|e];
      [|stops_with Ho1].
    rewrite run_bind_lift. cbn [mbind result_bind].
    destruct (Py.int lim part) as [episode|e]; [|stops_with Ho1].
    rewrite run_bind_lift. cbn [mbind result_bind].
    destruct (mean_search line) as [mean_match|]; [|stops_with Ho1].
    destruct (Py.float (Re.group1 mean_match)) as [mean_score|e];
      [|stops_with Ho1].
    rewrite run_bind_lift. cbn [mbind result_bind].
    destruct (append_episodes_owns _ _ _ _ Ho1 episode) as (h2 & Ha2 & Ho2).
    destruct (append_means_owns _ _ _ _ Ho2 (Float mean_score))
      as (h3 & Ha3 & Ho3).
    rewrite (run_bind_ok _ _ _ _ _ Ha2).
    eexists _, _. split; [exact Ho3|]. split; [exact Ha3|reflexivity].
  - destruct (Re.truth (Re.match_ prob_line_re line)); [|stops_with Ho].
    destruct (Re.search prob_re line) as [prob_match|]; [|stops_with Ho].
    destruct (Py.float (Re.group1 prob_match)) as [prob|e]; [|stops_with Ho].
    rewrite run_bind_lift. cbn [mbind result_bind].
    pose proof (set_last_owns _ _ _ _ Ho prob) as Hs.
    destruct (Py.set_last (prob2048 st) prob) as [l|e].
    + destruct Hs as (h' & Hs & Ho'). eexists _, _.
      split; [exact Ho'|]. split; [exact Hs|reflexivity].
    + eexists _, _. split; [exact Ho|exact Hs].
Qed.

Lemma loop_refines lines st h :
  Heap.owns h0 r st h ->
  Heap.refines h0 r (loop lim lines st) (Heap.loop lim r lines h).
Proof.
  revert st h. induction lines as [|l lines IH]; intros st h Ho.
  - exists h, st. split; [exact Ho|]. by split.
  - unfold loop. rewrite loop_with_cons.
    fold (body lim) (loop lim). cbn [Heap.loop].
    destruct (body_refines st h (Py.strip l) Ho) as (h1 & st1 & Ho1 & Hb).
    destruct (body lim st (Py.strip l)) as [st'|e].
    + destruct Hb as [Hb ->]. rewrite (run_bind_ok _ _ _ _ _ Hb).
      cbn [mbind result_bind]. by apply IH.
    + rewrite (run_bind_raise _ _ _ _ _ Hb). exists h1, st1.
      split; [exact Ho1|reflexivity].
Qed.

End Refines.

Lemma parse_refines lim data (h : Heap.heap) :
  exists h' r,
    Heap.parse_2048_training_data lim data h = Some (h', r)
    /\ Heap.value h' r
       = Some (Heap.of_output (parse_2048_training_data lim data))
    /\ h ⊆ h'
    /\ (forall refs, r = OK refs ->
          NoDup (Heap.refs_list refs)
          /\ Forall (fun l => h !! l = None) (Heap.refs_list refs)).
Proof.
  unfold Heap.parse_2048_training_data. cbv zeta.
  destruct (new_fresh (Heap.Dict ∅) h) as (l1 & N1 & F1).
  rewrite (run_bind_ok _ _ _ _ _ N1).
  destruct (new_fresh (Heap.List [Int 0]) (<[l1 := Heap.Dict ∅]> h))
    as (l2 & N2 & F2).
  rewrite (run_bind_ok _ _ _ _ _ N2).
  destruct (new_fresh (Heap.List [Int 0])
              (<[l2 := Heap.List [Int 0]]> (<[l1 := Heap.Dict ∅]> h)))
    as (l3 & N3 & F3).
  rewrite (run_bind_ok _ _ _ _ _ N3).
  destruct (new_fresh (Heap.List [Float zero])
              (<[l3 := Heap.List [Int 0]]>
                 (<[l2 := Heap.List [Int 0]]> (<[l1 := Heap.Dict ∅]> h))))
    as (l4 & N4 & F4).
  rewrite (run_bind_ok _ _ _ _ _ N4).
  clear N1 N2 N3 N4.
  apply lookup_insert_None in F2 as [F2 D12].
  apply lookup_insert_None in F3 as [F3 D23].
  apply lookup_insert_None in F3 as [F3 D13].
  apply lookup_insert_None in F4 as [F4 D34].
  apply lookup_insert_None in F4 as [F4 D24].
  apply lookup_insert_None in F4 as [F4 D14].
  set (r := Heap.Refs l1 l2 l3 l4).
  set (h4 := <[l4 := _]> _).
  assert (Heap.owns h r initial h4) as Ho.
  { subst h4. repeat split; simpl; unfold Heap.heap, Heap.loc in *.
    - repeat (apply insert_subseteq_r; [done|]). done.
    - unfold Heap.refs_list. simpl.
      rewrite !NoDup_cons, !not_elem_of_cons, NoDup_nil.
      repeat split; try done; apply not_elem_of_nil.
    - unfold Heap.refs_list. simpl. by repeat constructor.
    - by rewrite !lookup_insert_ne, lookup_insert_eq by done.
    - by rewrite !lookup_insert_ne, lookup_insert_eq by done.
    - by rewrite !lookup_insert_ne, lookup_insert_eq by done.
    - by rewrite lookup_insert_eq. }
  destruct (loop_refines lim h r (Py.split (Py.strip data) [Py.newline])
                         initial h4 Ho) as (h' & st' & Ho' & Hl).
  unfold parse_2048_training_data, parse_with. fold (loop lim).
  destruct (loop lim _ initial) as [st1|e].
  - destruct Hl as [Hl ->]. rewrite (run_bind_ok _ _ _ _ _ Hl).
    exists h', (OK r). split; [reflexivity|].
    destruct Ho' as (Hsub & Hnd & Hfr & Hm & He & Hmn & Hp).
    split; [|split; [done|]].
    + simpl. unfold Heap.contents. by rewrite Hm, He, Hmn, Hp.
    + by intros ? [= <-].
  - rewrite (run_bind_raise _ _ _ _ _ Hl).
    exists h', (Raise e). split; [reflexivity|].
    destruct Ho' as (Hsub & _). by repeat split.
Qed.

Lemma value_weaken (h h' : Heap.heap) r v :
  h ⊆ h' -> Heap.value h r = Some v -> Heap.value h' r = Some v.
Proof.
  intros Hsub. destruct r as [r|e]; [|done]. simpl.
  unfold Heap.contents.
  destruct (h !! Heap.metadata_ref r) as [[m|]|] eqn:Hm; try done.
  destruct (h !! Heap.episodes_ref r) as [[|es]|] eqn:He; try done.
  destruct (h !! Heap.means_ref r) as [[|ms]|] eqn:Hmn; try done.
  destruct (h !! Heap.prob2048_ref r) as [[|ps]|] eqn:Hp; try done.
  unfold Heap.heap, Heap.loc in *.
  by rewrite (lookup_weaken _ _ _ _ Hm Hsub), (lookup_weaken _ _ _ _ He Hsub),
    (lookup_weaken _ _ _ _ Hmn Hsub), (lookup_weaken _ _ _ _ Hp Hsub).
Qed.

(** ** Lines of one kind only *)



Section Kinds.

Variable lim : nat.
Variable search : str -> option Re.Match.

Lemma body_with_unrecognized st line :
  recognized line = false -> body_with lim search st line = OK st.
Proof.
  unfold recognized. intros H.
  apply orb_false_iff in H as [H Hp]. apply orb_false_iff in H as [Hk He].
  apply body_with_cases; try congruence.
  intros key v Hkey Hs. unfold stored in Hs.
  destruct (Py.startswith line (prefix key)) eqn:Hpre; [|done].
  assert (existsb (fun key => Py.startswith line (prefix key)) keys = true).
  { apply existsb_exists. exists key. by rewrite <- list_elem_of_In. }
  congruence.
Qed.

Lemma loop_with_unrecognized lines st :
  Forall (fun line => recognized line = false) (Py.strip <$> lines) ->
  loop_with lim search lines st = OK st.
Proof.
  induction lines as [|l lines IH]; [done|].
  rewrite fmap_cons, Forall_cons. intros [Hl Hlines].
  rewrite loop_with_cons, body_with_unrecognized by done. by apply IH.
Qed.

Lemma body_with_no_episode st line st' :
  is_episode_line line = false ->
  body_with lim search st line = OK st' -> episodes st' = episodes st.
Proof.
  intros He. revert st'. apply body_with_cases; try congruence.
  - by intros key v _ _ st' [= <-].
  - intros _ _ _ st' H. unfold prob_branch in H.
    bind_cases H; try done; by injection H as <-.
Qed.

Lemma loop_with_no_episode lines st st' :
  Forall (fun line => is_episode_line line = false) (Py.strip <$> lines) ->
  loop_with lim search lines st = OK st' -> episodes st' = episodes st.
Proof.
  revert st. induction lines as [|l lines IH]; intros st.
  - by intros _ [= <-].
  - rewrite fmap_cons, Forall_cons, loop_with_cons. intros [Hl Hlines] H.
    destruct (body_with lim search st (Py.strip l)) as [st1|] eqn:Hb; [|done].
    simpl in H. rewrite (IH _ Hlines H). by eapply body_with_no_episode.
Qed.



End Kinds.



(** ** The ticks *)

Section Ticks.

Local Open Scope Z_scope.

Lemma py_min_le e es : py_min e es <= e.
Proof.
  unfold py_min. revert e. induction es as [|x es IH]; intros e; simpl; [lia|].
  specialize (IH (Z.min e x)). lia.
Qed.

Lemma py_max_ge e es : e <= py_max e es.
Proof.
  unfold py_max. revert e. induction es as [|x es IH]; intros e; simpl; [lia|].
  specialize (IH (Z.max e x)). lia.
Qed.

Lemma block_le e es : py_min e es / 1000 <= py_max e es / 1000.
Proof.
  apply Z.div_le_mono; [lia|].
  pose proof (py_min_le e es). pose proof (py_max_ge e es). lia.
Qed.

(** The tick step is a tenth of the distance between the two blocks. *)
Lemma tick_step lo hi :
  (hi * 1000 + 1 - lo * 1000) / 10 = (hi - lo) * 100.
Proof. symmetry. apply (Z.div_unique _ _ _ 1); lia. Qed.

Lemma range_ticks start d :
  0 < d ->
  Py.range start (start + 10 * d + 1) d
  = OK (map (fun i => start + Z.of_nat i * d) (seq 0 11)).
Proof.
  intros Hd. unfold Py.range.
  replace (d =? 0) with false by (symmetry; apply Z.eqb_neq; lia).
  replace (0 <? d) with true by (symmetry; apply Z.ltb_lt; lia).
  replace (start <? start + 10 * d + 1) with true
    by (symmetry; apply Z.ltb_lt; lia).
  replace ((start + 10 * d + 1 - 1 - start) / d) with 10; [done|].
  apply (Z.div_unique _ _ _ 0); lia.
Qed.

Lemma x_ticks_blocks e es :
  py_min e es / 1000 <> py_max e es / 1000 ->
  let lo := py_min e es / 1000 * 1000 in
  let hi := py_max e es / 1000 * 1000 in
  x_ticks (e :: es)
  = OK (Some (map (fun i => lo + Z.of_nat i * ((hi - lo) / 10)) (seq 0 11))).
Proof.
  intros Hne lo hi. pose proof (block_le e es) as Hle.
  unfold x_ticks, x_min, x_max. fold lo hi.
  assert ((hi - lo) / 10 = (py_max e es / 1000 - py_min e es / 1000) * 100)
    as Hstep.
  { symmetry. apply (Z.div_unique _ _ _ 0); subst lo hi; lia. }
  assert ((hi + 1 - lo) / 10 = (hi - lo) / 10) as ->.
  { rewrite Hstep. subst lo hi. apply tick_step. }
  replace (hi + 1) with (lo + 10 * ((hi - lo) / 10) + 1)
    by (rewrite Hstep; subst lo hi; lia).
  rewrite range_ticks by (rewrite Hstep; lia). done.
Qed.

Lemma x_ticks_same_block episodes :
  same_block episodes = true -> x_ticks episodes = Raise ValueError.
Proof.
  destruct episodes as [|e es]; [done|]. simpl. intros H%Z.eqb_eq.
  unfold x_min, x_max. rewrite H.
  replace ((py_max e es / 1000 * 1000 + 1 - py_max e es / 1000 * 1000) / 10)
    with 0; [done|].
  apply (Z.div_unique _ _ _ 1); lia.
Qed.

End Ticks.

(** ** Episode lines and the secondary search *)

Lemma failures_zero search lines :
  failures search lines = 0
  <-> Forall (fun line => search_fails search line = false) lines.
Proof.
  unfold failures. induction lines as [|l lines IH]; simpl.
  - split; [constructor|done].
  - rewrite Forall_cons, <- IH.
    destruct (search_fails search l); simpl; split; try done; [|tauto].
    by intros [? ?].
Qed.

Lemma failures_exists search lines :
  failures search lines <> 0
  <-> exists line, line ∈ lines /\ search_fails search line = true.
Proof.
  rewrite failures_zero. split.
  - intros H. apply not_Forall_Exists in H; [|intros l; apply _].
    apply Exists_exists in H as (l & Hl & Hf). exists l. split; [done|].
    destruct (search_fails search l) eqn:E; [done|by destruct Hf].
  - intros (l & Hl & Hf) H. rewrite Forall_forall in H.
    specialize (H l Hl). congruence.
Qed.

Lemma failures_mean_search lines : failures mean_search lines = 0.
Proof.
  apply failures_zero, Forall_forall. intros l _. unfold search_fails.
  destruct (is_episode_line l) eqn:He; [|done].
  by destruct (episode_line_mean_search l He) as [m ->].
Qed.

Lemma body_with_episode_line lim search st line st' :
  is_episode_line line = true ->
  body_with lim search st line = OK st' ->
  prob2048 st' = prob2048 st ++ [zero]
  /\ match search line with
     | Some _ => exists e f, episodes st' = episodes st ++ [e]
                             /\ means st' = means st ++ [Float f]
     | None => episodes st' = episodes st /\ means st' = means st
     end.
Proof.
  intros He. revert st'. apply body_with_cases; try congruence.
  - intros key v Hk Hs. destruct (metadata_not_numbers _ _ _ Hk Hs). congruence.
  - intros _ _ st' H. unfold episode_branch in H.
    bind_cases H; try done; injection H as <-; simpl; eauto.
Qed.

(** * Examples

    The inputs that the specification gives as tests. *)

Example metadata_in_any_order :
  exists m es ms ps,
    parse_2048_training_data 4300
      (lit ("seed = 42" ++ nl ++ "alpha = 0.1" ++ nl ++ "total = 1000" ++ nl
            ++ "seed = 7" ++ nl))
    = OK (m, es, ms, ps)
    /\ m !! "alpha"%string = Some (lit "0.1")
    /\ m !! "total"%string = Some (lit "1000")
    /\ m !! "seed"%string = Some (lit "7").
Proof. eexists _, _, _, _. repeat split; vm_compute; reflexivity. Qed.

Example episode_then_probability :
  parse_2048_training_data 4300
    (lit ("100" ++ tab ++ "mean = 12345.6" ++ tab ++ "max = 98765.4" ++ nl
          ++ tab ++ "2048" ++ tab ++ "3.25%"))
  = OK (∅, [0%Z; 100%Z],
        [Int 0; Float (S754_finite false 6787065375935693 (-39))],
        [zero; S754_finite false 7318349394477056 (-51)]).
Proof. vm_compute. reflexivity. Qed.

Example episode_without_probability :
  parse_2048_training_data 4300
    (lit ("1000 mean = 1 max = 2" ++ nl ++ "2000 mean = 1 max = 2" ++ nl
          ++ "2048 50%"))
  = OK (∅, [0%Z; 1000%Z; 2000%Z],
        [Int 0; Float (S754_finite false 4503599627370496 (-52));
         Float (S754_finite false 4503599627370496 (-52))],
        [zero; zero; S754_finite false 7036874417766400 (-47)]).
Proof. vm_compute. reflexivity. Qed.

Example two_charts :
  exists mean_chart prob_chart,
    plot_2048_training_results 4300
      (lit ("alpha = 0.1" ++ nl ++ "5000 mean = 1 max = 2"))
    = OK (mean_chart, prob_chart)
    /\ xticks mean_chart
       = Some [0; 500; 1000; 1500; 2000; 2500; 3000; 3500; 4000; 4500; 5000]%Z
    /\ xticks prob_chart = xticks mean_chart
    /\ info_text mean_chart = [lit "Alpha: 0.1"].
Proof. eexists _, _. repeat split; vm_compute; reflexivity. Qed.

(** * The claims *)

(** ** Metadata *)

(** C1, as the code has it: a line that starts with the prefix of a key
    stores under that key the text between the prefix and the next
    [" = "] (all of the rest of the line when there is none), as a string;
    and when the call returns, the value under a key is the one stored by
    the last line of the input that starts with its prefix. *)
Theorem metadata_last_write_wins lim data m es ms ps key :
  key ∈ keys ->
  parse_2048_training_data lim data = OK (m, es, ms, ps) ->
  m !! key = last (omap (stored key) (lines_of data))
  /\ forall st line v,
      stored key line = Some v -> body lim st line = OK (set_metadata st key v).
Proof.
  intros Hk H. split.
  - apply parse_with_loop in H as (st & Hl & [= -> _ _ _]).
    rewrite (loop_with_metadata _ _ key _ _ _ Hk Hl). unfold lines_of.
    destruct (last _); [done|]. apply lookup_empty.
  - intros st line v Hs. unfold body. apply body_with_cases.
    + intros key' v' Hk' Hs'. destruct (decide (key' = key)) as [->|Hne].
      * congruence.
      * rewrite (stored_exclusive key' key line v') in Hs; done.
    + intros Hnone. rewrite Hnone in Hs; done.
    + intros Hnone. rewrite Hnone in Hs; done.
    + intros Hnone. rewrite Hnone in Hs; done.
Qed.

Lemma metadata_last_write_wins_witness :
  parse_2048_training_data 4300 (lit ("seed = 42" ++ nl ++ "seed = 7"))
  = OK ({["seed"%string := lit "7"]}, [0%Z], [Int 0], [zero])
  /\ ({["seed"%string := lit "7"]} : gmap string str) !! "seed"%string
     = Some (lit "7").
Proof.
  assert (parse_2048_training_data 4300 (lit ("seed = 42" ++ nl ++ "seed = 7"))
          = OK ({["seed"%string := lit "7"]}, [0%Z], [Int 0], [zero])) as H
    by (vm_compute; reflexivity).
  split; [exact H|].
  rewrite (proj1 (metadata_last_write_wins 4300 _ _ _ _ _ "seed"
                    (proj2 (elem_of_keys "seed") (or_intror (or_intror eq_refl)))
                    H)).
  reflexivity.
Defined.

(** C1 as stated fails: the value stored for ["alpha = a = b"] is ["a"],
    not the substring after the first [" = "], which is ["a = b"]. *)
Lemma metadata_value_stops_at_separator :
  Py.startswith (lit "alpha = a = b") (prefix "alpha") = true
  /\ Spec.after_first (lit " = ") (lit "alpha = a = b") = Some (lit "a = b")
  /\ exists m es ms ps,
      parse_2048_training_data 4300 (lit "alpha = a = b") = OK (m, es, ms, ps)
      /\ m !! "alpha"%string = Some (lit "a")
      /\ m !! "alpha"%string <> Spec.after_first (lit " = ") (lit "alpha = a = b").
Proof.
  split; [reflexivity|]. split; [reflexivity|].
  eexists _, _, _, _. split; [reflexivity|]. split; [reflexivity|].
  vm_compute. discriminate.
Qed.

(** C5, as the code has it: each prefix contains the separator, so a line
    that starts with one splits in two pieces at least and the metadata
    branch stores a value without a fault. *)
Theorem metadata_line_never_faults lim key line st :
  key ∈ keys ->
  Py.startswith line (prefix key) = true ->
  2 <= length (Py.split line (lit " = "))
  /\ exists v, Py.getitem (Py.split line (lit " = ")) 1 = OK v
               /\ body lim st line = OK (set_metadata st key v).
Proof.
  intros Hk Hp.
  assert (stored key line
          = Some (before_sep (lit " = ") (drop (length (prefix key)) line)))
    as Hs by (unfold stored; by rewrite Hp).
  pose proof (stored_getitem _ _ _ Hk Hs) as Hg. split.
  - unfold Py.getitem in Hg.
    destruct (Py.split line (lit " = ") !! 1) eqn:E; [|done].
    apply lookup_lt_Some in E. lia.
  - eexists. split; [exact Hg|]. unfold body. apply body_with_cases.
    + intros key' v' Hk' Hs'. destruct (decide (key' = key)) as [->|Hne].
      * congruence.
      * rewrite (stored_exclusive key' key line v') in Hs; done.
    + intros Hnone. rewrite Hnone in Hs; done.
    + intros Hnone. rewrite Hnone in Hs; done.
    + intros Hnone. rewrite Hnone in Hs; done.
Qed.

Lemma metadata_line_never_faults_witness :
  Py.startswith (lit "total = 1000") (prefix "total") = true
  /\ 2 <= length (Py.split (lit "total = 1000") (lit " = ")).
Proof.
  split; [reflexivity|].
  exact (proj1 (metadata_line_never_faults 4300 "total" (lit "total = 1000")
                  initial
                  (proj2 (elem_of_keys "total") (or_intror (or_introl eq_refl)))
                  eq_refl)).
Defined.

(** C5 as stated fails: the input line ["alpha = "] starts with a prefix,
    and once trimmed it has no separator (it splits in one piece); the
    call returns, with nothing stored.  So does it on ["alpha=0.1"]. *)
Lemma metadata_prefix_without_separator :
  Py.startswith (lit "alpha = ") (prefix "alpha") = true
  /\ Py.split (Py.strip (lit "alpha = ")) (lit " = ") = [lit "alpha ="]
  /\ parse_2048_training_data 4300 (lit "alpha = ")
     = OK (∅, [0%Z], [Int 0], [zero])
  /\ parse_2048_training_data 4300 (lit "alpha=0.1")
     = OK (∅, [0%Z], [Int 0], [zero]).
Proof. repeat split; vm_compute; reflexivity. Qed.

(** ** Episode lines *)

(** C2: on an episode line the body appends the placeholder 0.0 to
    [prob2048] whatever the secondary search gives; when the search finds
    nothing, [episodes] and [means] stay as they were, so [prob2048] gets
    one element ahead; and when the call returns, [prob2048] is longer than
    [episodes] and [means] by the number of episode lines on which the
    search found nothing, hence of another length exactly when there is
    such a line.  This holds for any secondary search. *)
Theorem placeholder_misalignment lim search data m es ms ps :
  parse_with lim search data = OK (m, es, ms, ps) ->
  (forall st line st',
      is_episode_line line = true -> body_with lim search st line = OK st' ->
      prob2048 st' = prob2048 st ++ [zero]
      /\ (search line = None ->
          episodes st' = episodes st /\ means st' = means st))
  /\ length ms = length es
  /\ length ps = length es + failures search (lines_of data)
  /\ (length ps <> length es
      <-> exists line, line ∈ lines_of data /\ search_fails search line = true).
Proof.
  intros H. split.
  { intros st line st' He Hb.
    destruct (body_with_episode_line _ _ _ _ _ He Hb) as [Hp Hs].
    split; [done|]. intros Hn. by rewrite Hn in Hs. }
  apply parse_with_loop in H as (st & Hl & [= -> -> -> ->]).
  apply loop_with_lengths in Hl as (_ & H1 & H2). simpl in H1, H2.
  fold (lines_of data) in H2.
  split; [lia|]. split; [lia|].
  rewrite <- failures_exists. lia.
Qed.

Lemma placeholder_misalignment_witness :
  parse_with 4300 no_search (lit "1 mean = 2 max = 3")
  = OK (∅, [0%Z], [Int 0], [zero; zero])
  /\ length [zero; zero]
     = length [0%Z] + failures no_search (lines_of (lit "1 mean = 2 max = 3")).
Proof.
  assert (parse_with 4300 no_search (lit "1 mean = 2 max = 3")
          = OK (∅, [0%Z], [Int 0], [zero; zero])) as H
    by (vm_compute; reflexivity).
  split; [exact H|].
  exact (proj1 (proj2 (proj2 (placeholder_misalignment 4300 _ _ _ _ _ _ H)))).
Defined.

(** C4: when the call returns, [episodes], [means] and [prob2048] have the
    same length, at least 1; for on a line that matches the episode pattern
    the secondary search for the mean always finds a match. *)
Theorem series_aligned lim data m es ms ps :
  parse_2048_training_data lim data = OK (m, es, ms, ps) ->
  length es = length ms /\ length ms = length ps /\ 1 <= length es
  /\ forall line, is_episode_line line = true -> is_Some (mean_search line).
Proof.
  intros H. apply parse_with_loop in H as (st & Hl & [= -> -> -> ->]).
  apply loop_with_lengths in Hl as (H0 & H1 & H2).
  rewrite failures_mean_search in H2. simpl in H0, H1, H2.
  repeat split; try lia. apply episode_line_mean_search.
Qed.

Lemma series_aligned_witness :
  parse_2048_training_data 4300
    (lit ("100" ++ tab ++ "mean = 12345.6" ++ tab ++ "max = 98765.4" ++ nl
          ++ tab ++ "2048" ++ tab ++ "3.25%"))
  = OK (∅, [0%Z; 100%Z],
        [Int 0; Float (S754_finite false 6787065375935693 (-39))],
        [zero; S754_finite false 7318349394477056 (-51)])
  /\ length [0%Z; 100%Z]
     = length [Int 0; Float (S754_finite false 6787065375935693 (-39))].
Proof.
  assert (parse_2048_training_data 4300
            (lit ("100" ++ tab ++ "mean = 12345.6" ++ tab ++ "max = 98765.4" ++ nl
                  ++ tab ++ "2048" ++ tab ++ "3.25%"))
          = OK (∅, [0%Z; 100%Z],
                [Int 0; Float (S754_finite false 6787065375935693 (-39))],
                [zero; S754_finite false 7318349394477056 (-51)])) as H
    by (vm_compute; reflexivity).
  split; [exact H|].
  exact (proj1 (series_aligned 4300 _ _ _ _ _ H)).
Defined.

(** ** Errors *)

(** C3, as the code has it: on a line that matches the episode pattern or
    the probability pattern the secondary search always finds its number,
    and the call returns exactly when the numbers of every line convert,
    that is when each episode number is within the digit limit of [int]
    and each captured mean or probability is a float literal; otherwise it
    raises [ValueError], and it raises nothing else. *)
Theorem returns_when_numbers_convert lim data :
  ((exists out, parse_2048_training_data lim data = OK out)
   <-> Forall (fun line => numbers_convert lim line = true) (lines_of data))
  /\ (forall e, parse_2048_training_data lim data = Raise e -> e = ValueError)
  /\ (forall line, is_episode_line line = true -> is_Some (mean_search line))
  /\ (forall line, is_prob_line line = true ->
                   is_Some (Re.search prob_re line)).
Proof.
  split; [apply parse_returns|]. split; [|split].
  - intros e. apply parse_with_raises.
  - apply episode_line_mean_search.
  - apply prob_line_search.
Qed.

Lemma returns_when_numbers_convert_witness :
  Forall (fun line => numbers_convert 4300 line = true)
         (lines_of (lit "1 mean = 2.5 max = 3"))
  /\ exists out,
      parse_2048_training_data 4300 (lit "1 mean = 2.5 max = 3") = OK out.
Proof.
  assert (Forall (fun line => numbers_convert 4300 line = true)
                 (lines_of (lit "1 mean = 2.5 max = 3"))) as H
    by (repeat constructor).
  split; [exact H|].
  exact (proj2 (proj1 (returns_when_numbers_convert 4300 _)) H).
Defined.

(** C3 as stated fails: ["1 mean = . max = 1"] matches the episode
    pattern and ["2048 1.2.3%"] the probability pattern, there is no
    metadata line, and the call raises [ValueError] on either, with or
    without a digit limit. *)
Lemma number_that_does_not_convert :
  is_episode_line (lit "1 mean = . max = 1") = true
  /\ parse_2048_training_data 4300 (lit "1 mean = . max = 1") = Raise ValueError
  /\ parse_2048_training_data 0 (lit "1 mean = . max = 1") = Raise ValueError
  /\ is_prob_line (lit "2048 1.2.3%") = true
  /\ parse_2048_training_data 4300 (lit "2048 1.2.3%") = Raise ValueError
  /\ parse_2048_training_data 0 (lit "2048 1.2.3%") = Raise ValueError.
Proof. repeat split; vm_compute; reflexivity. Qed.

(** C6: when no line of the input is a metadata line, an episode line or a
    probability line, the call returns the empty metadata and the three
    series with their first entry only; so it does on the empty string. *)
Theorem unrecognized_input lim data :
  Forall (fun line => recognized line = false) (lines_of data) ->
  parse_2048_training_data lim data = OK (∅, [0%Z], [Int 0], [zero])
  /\ parse_2048_training_data lim [] = OK (∅, [0%Z], [Int 0], [zero]).
Proof.
  intros H. unfold parse_2048_training_data, parse_with. split.
  - by rewrite loop_with_unrecognized.
  - by rewrite loop_with_unrecognized by (by repeat constructor).
Qed.

Lemma unrecognized_input_witness :
  Forall (fun line => recognized line = false)
         (lines_of (lit ("TD learning" ++ nl ++ "alpha=0.1" ++ nl)))
  /\ parse_2048_training_data 4300 (lit ("TD learning" ++ nl ++ "alpha=0.1" ++ nl))
     = OK (∅, [0%Z], [Int 0], [zero]).
Proof.
  assert (Forall (fun line => recognized line = false)
                 (lines_of (lit ("TD learning" ++ nl ++ "alpha=0.1" ++ nl)))) as H
    by (repeat constructor).
  split; [exact H|].
  exact (proj1 (unrecognized_input 4300 _ H)).
Defined.

(** ** Ticks *)

(** C7, as the code has it: when the least and the greatest episode lie in
    different blocks of a thousand, the ticks of a chart are the eleven
    values from [floor(min/1000)*1000] to [floor(max/1000)*1000], a tenth
    of that distance apart; both charts are built by [chart_of]. *)
Theorem ticks_in_ten_steps metadata e es series :
  (py_min e es / 1000 <> py_max e es / 1000)%Z ->
  let lo := (py_min e es / 1000 * 1000)%Z in
  let hi := (py_max e es / 1000 * 1000)%Z in
  let ticks := map (fun i => (lo + Z.of_nat i * ((hi - lo) / 10))%Z) (seq 0 11) in
  x_ticks (e :: es) = OK (Some ticks)
  /\ head ticks = Some lo /\ last ticks = Some hi
  /\ exists c, chart_of metadata (e :: es) series = OK c /\ xticks c = Some ticks.
Proof.
  intros Hne lo hi ticks.
  pose proof (x_ticks_blocks e es Hne) as H. fold lo hi ticks in H.
  split; [exact H|]. split; [|split].
  - simpl. f_equal. lia.
  - simpl. f_equal.
    assert ((hi - lo) / 10 * 10 = hi - lo)%Z; [|lia].
    assert ((hi - lo) / 10
            = (py_max e es / 1000 - py_min e es / 1000) * 100)%Z as ->; [|lia].
    symmetry. apply (Z.div_unique _ _ _ 0); lia.
  - unfold chart_of. rewrite H. simpl. eauto.
Qed.

Lemma ticks_in_ten_steps_witness :
  x_ticks [0; 5000; 12000]%Z
  = OK (Some [0; 1200; 2400; 3600; 4800; 6000; 7200; 8400; 9600; 10800; 12000]%Z).
Proof.
  refine (proj1 (ticks_in_ten_steps ∅ 0%Z [5000; 12000]%Z [] _)).
  vm_compute. discriminate.
Defined.

(** C7 as stated fails: for the episodes 0 and 5000 the ticks run from 0
    to 5000 in steps of 500, not from 0 to 6000 in steps of 600; the upper
    end is [floor(max/1000)*1000], the [+ 1] of [x_max] only makes [range]
    include it. *)
Lemma ticks_stop_at_last_block :
  x_ticks [0; 5000]%Z
  = OK (Some [0; 500; 1000; 1500; 2000; 2500; 3000; 3500; 4000; 4500; 5000]%Z)
  /\ Spec.x_ticks [0; 5000]%Z
     = Some [0; 600; 1200; 1800; 2400; 3000; 3600; 4200; 4800; 5400; 6000]%Z
  /\ x_ticks [0; 5000]%Z <> OK (Spec.x_ticks [0; 5000]%Z).
Proof. repeat split; vm_compute; (reflexivity || discriminate). Qed.

(** C8: when the call returns episodes whose least and greatest lie in the
    same block of a thousand, [(x_max - x_min) // 10] is 0, [range] raises
    [ValueError] on that step and so does the plotting function; and an
    input without an episode line gives the episodes [[0]], which are such
    episodes. *)
Theorem zero_tick_step lim data m es ms ps :
  parse_2048_training_data lim data = OK (m, es, ms, ps) ->
  (same_block es = true ->
   (forall e es', es = e :: es' ->
      ((x_max e es' - x_min e es') / 10 = 0)%Z
      /\ Py.range (x_min e es') (x_max e es') 0 = Raise ValueError)
   /\ x_ticks es = Raise ValueError
   /\ plot_2048_training_results lim data = Raise ValueError)
  /\ (Forall (fun line => is_episode_line line = false) (lines_of data) ->
      es = [0%Z] /\ same_block es = true).
Proof.
  intros H. split.
  - intros Hb. pose proof (x_ticks_same_block es Hb) as Ht. split; [|split].
    + intros e es' ->. split; [|done]. unfold x_min, x_max.
      simpl in Hb. apply Z.eqb_eq in Hb. rewrite Hb.
      symmetry. apply (Z.div_unique _ _ _ 1); lia.
    + exact Ht.
    + unfold plot_2048_training_results. rewrite H. simpl.
      unfold chart_of. by rewrite Ht.
  - intros Hl. apply parse_with_loop in H as (st & Hloop & [= -> -> -> ->]).
    apply loop_with_no_episode in Hloop; [|exact Hl].
    rewrite Hloop. done.
Qed.

Lemma zero_tick_step_witness :
  parse_2048_training_data 4300 (lit ("500 mean = 1 max = 2"))
  = OK (∅, [0%Z; 500%Z],
        [Int 0; Float (S754_finite false 4503599627370496 (-52))],
        [zero; zero])
  /\ same_block [0%Z; 500%Z] = true
  /\ plot_2048_training_results 4300 (lit ("500 mean = 1 max = 2"))
     = Raise ValueError.
Proof.
  assert (parse_2048_training_data 4300 (lit ("500 mean = 1 max = 2"))
          = OK (∅, [0%Z; 500%Z],
                [Int 0; Float (S754_finite false 4503599627370496 (-52))],
                [zero; zero])) as H
    by (vm_compute; reflexivity).
  split; [exact H|]. split; [reflexivity|].
  exact (proj2 (proj2 (proj1 (zero_tick_step 4300 _ _ _ _ _ H) eq_refl))).
Defined.

(** ** The call as a whole *)

(** C9: run on the heap of the interpreter, the function reads nothing but
    its argument and updates nothing but objects that it creates.  From
    any two heaps, on the same string, the two calls end, and what their
    callers find is structurally identical: the same four objects behind
    the references returned, or the same exception; it is the value of
    [parse_2048_training_data] on the string.  Each call leaves every
    object that existed before it as it was, and the references that it
    returns lead to four objects that did not exist before it.  When the
    second call follows the first, the results of both are there
    afterwards, and they are structurally identical. *)
Theorem parse_is_pure lim data (h1 h2 : Heap.heap) :
  exists h1' r1 h2' r2,
    Heap.parse_2048_training_data lim data h1 = Some (h1', r1)
    /\ Heap.parse_2048_training_data lim data h2 = Some (h2', r2)
    /\ Heap.value h1' r1 = Heap.value h2' r2
    /\ Heap.value h1' r1
       = Some (Heap.of_output (parse_2048_training_data lim data))
    /\ h1 ⊆ h1' /\ h2 ⊆ h2'
    /\ (forall refs, r1 = OK refs ->
          NoDup (Heap.refs_list refs)
          /\ Forall (fun l => h1 !! l = None) (Heap.refs_list refs))
    /\ (forall refs, r2 = OK refs ->
          NoDup (Heap.refs_list refs)
          /\ Forall (fun l => h2 !! l = None) (Heap.refs_list refs))
    /\ (h1' ⊆ h2 -> Heap.value h2' r1 = Heap.value h2' r2).
Proof.
  destruct (parse_refines lim data h1) as (h1' & r1 & P1 & V1 & S1 & F1).
  destruct (parse_refines lim data h2) as (h2' & r2 & P2 & V2 & S2 & F2).
  exists h1', r1, h2', r2. rewrite V1, V2.
  split; [exact P1|]. split; [exact P2|]. split; [done|]. split; [done|].
  split; [exact S1|]. split; [exact S2|]. split; [exact F1|].
  split; [exact F2|].
  intros S12. apply (value_weaken h1'); [|exact V1].
  by transitivity h2.
Qed.



(** * Further properties *)

(** ** What a pass of the body does, line by line *)

Section Lines.

Variable lim : nat.

Lemma body_episode_line st line st' :
  is_episode_line line = true -> body lim st line = OK st' ->
  exists f, mean_of line = Some f
            /\ st' = append_episode (set_prob2048 st (prob2048 st ++ [zero]))
                                    (episode_of line) f.
Proof.
  intros He. revert st'. unfold body. apply body_with_cases; try congruence.
  - intros key v Hk Hs. destruct (metadata_not_numbers _ _ _ Hk Hs). congruence.
  - intros _ _ st' H. unfold episode_branch in H.
    rewrite int_leading_digits in H by done.
    destruct (episode_line_mean_search line He) as [m Hm].
    unfold mean_of, float_of. rewrite Hm in *.
    destruct (Py.within_limit lim (leading_digits line)); [|done]. simpl in H.
    destruct (Py.float (Re.group1 m)) as [f|]; [|done].
    injection H as <-. eauto.
Qed.

Lemma body_prob_line st line st' :
  is_episode_line line = false -> is_prob_line line = true ->
  body lim st line = OK st' ->
  exists f l, prob_of line = Some f /\ Py.set_last (prob2048 st) f = OK l
              /\ st' = set_prob2048 st l.
Proof.
  intros He Hp. revert st'. unfold body. apply body_with_cases; try congruence.
  - intros key v Hk Hs. destruct (metadata_not_numbers _ _ _ Hk Hs). congruence.
  - intros _ _ _ st' H. unfold prob_branch in H.
    destruct (prob_line_search line Hp) as [m Hm].
    unfold prob_of, float_of. rewrite Hm in *.
    destruct (Py.float (Re.group1 m)) as [f|]; [|done]. simpl in H.
    destruct (Py.set_last (prob2048 st) f) as [l|] eqn:Hl; [|done].
    injection H as <-. eauto.
Qed.

Lemma body_other_line st line st' :
  is_episode_line line = false -> is_prob_line line = false ->
  body lim st line = OK st' ->
  episodes st' = episodes st /\ means st' = means st
  /\ prob2048 st' = prob2048 st.
Proof.
  intros He Hp. revert st'. unfold body. apply body_with_cases; try congruence.
  - by intros key v _ _ st' [= <-].
  - by intros _ _ _ st' [= <-].
Qed.

Lemma loop_cons l lines st :
  loop lim (l :: lines) st = body lim st (Py.strip l) ≫= loop lim lines.
Proof. reflexivity. Qed.

Lemma loop_episodes_means lines st st' :
  loop lim lines st = OK st' ->
  let elines := List.filter is_episode_line (Py.strip <$> lines) in
  episodes st' = episodes st ++ (episode_of <$> elines)
  /\ Some <$> means st'
     = (Some <$> means st) ++ (fmap Float <$> (mean_of <$> elines)).
Proof.
  revert st. induction lines as [|l lines IH]; intros st H.
  - injection H as <-. simpl. by rewrite !app_nil_r.
  - rewrite loop_cons in H.
    destruct (body lim st (Py.strip l)) as [st1|] eqn:Hb; [|done]. simpl in H.
    destruct (IH _ H) as [IH1 IH2]. rewrite fmap_cons. simpl.
    destruct (is_episode_line (Py.strip l)) eqn:He.
    + destruct (body_episode_line _ _ _ He Hb) as (f & Hf & ->).
      simpl in *. rewrite IH1, IH2, Hf, fmap_app, <- !app_assoc. done.
    + rewrite IH1, IH2.
      destruct (is_prob_line (Py.strip l)) eqn:Hp.
      * destruct (body_prob_line _ _ _ He Hp Hb) as (f & l' & _ & _ & ->). done.
      * destruct (body_other_line _ _ _ He Hp Hb) as (-> & -> & _). done.
Qed.

Lemma loop_tile_probabilities lines st st' init cur :
  loop lim lines st = OK st' -> prob2048 st = init ++ [cur] ->
  exists ps, tile_probabilities cur (Py.strip <$> lines) = Some ps
             /\ prob2048 st' = init ++ ps.
Proof.
  revert st init cur. induction lines as [|l lines IH]; intros st init cur H Hst.
  - injection H as <-. simpl. eauto.
  - rewrite loop_cons in H.
    destruct (body lim st (Py.strip l)) as [st1|] eqn:Hb; [|done]. simpl in H.
    rewrite fmap_cons. simpl.
    destruct (is_episode_line (Py.strip l)) eqn:He.
    + destruct (body_episode_line _ _ _ He Hb) as (f & Hf & ->).
      destruct (IH _ (init ++ [cur]) zero H) as (ps & -> & Hps).
      { simpl. by rewrite Hst. }
      exists (cur :: ps). split; [done|]. rewrite Hps, <- app_assoc. done.
    + destruct (is_prob_line (Py.strip l)) eqn:Hp.
      * destruct (body_prob_line _ _ _ He Hp Hb) as (f & l' & -> & Hl & ->).
        apply (IH _ init f H). simpl.
        unfold Py.set_last in Hl. rewrite Hst in Hl.
        destruct (init ++ [cur]) eqn:E; [by destruct init|].
        rewrite <- E in Hl. injection Hl as <-.
        rewrite length_app. simpl.
        replace (pred (length init + 1)) with (length init + 0) by lia.
        by rewrite insert_app_r.
      * destruct (body_other_line _ _ _ He Hp Hb) as (_ & _ & Hpr).
        apply (IH _ init cur H). by rewrite Hpr.
Qed.

End Lines.

(** ** The series, read off the lines *)

(** X1: when the call returns, [episodes] is 0 followed by the episode
    numbers of the episode lines, in the order of the input, and [means] is
    the [int] 0 followed by the means that those lines state: nothing is
    reordered, dropped or added, and entry [i] of both comes from the same
    line. *)
Theorem episodes_and_means_follow_the_lines lim data m es ms ps :
  parse_2048_training_data lim data = OK (m, es, ms, ps) ->
  let elines := List.filter is_episode_line (lines_of data) in
  es = 0%Z :: (episode_of <$> elines)
  /\ Some <$> ms = Some (Int 0) :: (fmap Float <$> (mean_of <$> elines)).
Proof.
  intros H. apply parse_with_loop in H as (st & Hl & [= -> -> -> ->]).
  apply (loop_episodes_means lim) in Hl. exact Hl.
Qed.

Lemma episodes_and_means_follow_the_lines_witness :
  parse_2048_training_data 4300
    (lit ("2000 mean = 3.25 max = 4" ++ nl ++ "seed = 1" ++ nl
          ++ "1000 mean = 0.1 max = 4"))
  = OK ({["seed"%string := lit "1"]}, [0%Z; 2000%Z; 1000%Z],
        [Int 0; Float (S754_finite false 7318349394477056 (-51));
         Float (S754_finite false 7205759403792794 (-56))],
        [zero; zero; zero])
  /\ [0%Z; 2000%Z; 1000%Z]
     = 0%Z :: (episode_of
                 <$> [lit "2000 mean = 3.25 max = 4"; lit "1000 mean = 0.1 max = 4"]).
Proof.
  assert (parse_2048_training_data 4300
            (lit ("2000 mean = 3.25 max = 4" ++ nl ++ "seed = 1" ++ nl
                  ++ "1000 mean = 0.1 max = 4"))
          = OK ({["seed"%string := lit "1"]}, [0%Z; 2000%Z; 1000%Z],
                [Int 0; Float (S754_finite false 7318349394477056 (-51));
                 Float (S754_finite false 7205759403792794 (-56))],
                [zero; zero; zero])) as H
    by (vm_compute; reflexivity).
  split; [exact H|].
  exact (proj1 (episodes_and_means_follow_the_lines 4300 _ _ _ _ _ H)).
Defined.

(** X2: when the call returns, [prob2048] is what an accumulator gives:
    the current probability starts at 0.0, a probability line replaces it,
    an episode line closes it and starts a new one at 0.0, and the end of
    the input closes the last one.  So the entry of an episode is the
    percentage of the last probability line between its line and the next
    episode line, and 0.0 when there is none. *)
Theorem prob2048_by_accumulator lim data m es ms ps :
  parse_2048_training_data lim data = OK (m, es, ms, ps) ->
  tile_probabilities zero (lines_of data) = Some ps.
Proof.
  intros H. apply parse_with_loop in H as (st & Hl & [= -> -> -> ->]).
  destruct (loop_tile_probabilities lim _ _ _ [] zero Hl eq_refl)
    as (ps & Hps & ->).
  exact Hps.
Qed.

Lemma prob2048_by_accumulator_witness :
  parse_2048_training_data 4300
    (lit ("2048 7%" ++ nl ++ "1000 mean = 1 max = 2" ++ nl
          ++ "2000 mean = 1 max = 2" ++ nl ++ "2048 50%" ++ nl ++ "2048 3.25%"))
  = OK (∅, [0%Z; 1000%Z; 2000%Z],
        [Int 0; Float (S754_finite false 4503599627370496 (-52));
         Float (S754_finite false 4503599627370496 (-52))],
        [S754_finite false 7881299347898368 (-50); zero;
         S754_finite false 7318349394477056 (-51)])
  /\ tile_probabilities zero
       (lines_of
          (lit ("2048 7%" ++ nl ++ "1000 mean = 1 max = 2" ++ nl
                ++ "2000 mean = 1 max = 2" ++ nl ++ "2048 50%" ++ nl
                ++ "2048 3.25%")))
     = Some [S754_finite false 7881299347898368 (-50); zero;
             S754_finite false 7318349394477056 (-51)].
Proof.
  assert (parse_2048_training_data 4300
            (lit ("2048 7%" ++ nl ++ "1000 mean = 1 max = 2" ++ nl
                  ++ "2000 mean = 1 max = 2" ++ nl ++ "2048 50%" ++ nl
                  ++ "2048 3.25%"))
          = OK (∅, [0%Z; 1000%Z; 2000%Z],
                [Int 0; Float (S754_finite false 4503599627370496 (-52));
                 Float (S754_finite false 4503599627370496 (-52))],
                [S754_finite false 7881299347898368 (-50); zero;
                 S754_finite false 7318349394477056 (-51)])) as H
    by (vm_compute; reflexivity).
  split; [exact H|].
  exact (prob2048_by_accumulator 4300 _ _ _ _ _ H).
Defined.

(** ** The metadata, read off the lines *)

Lemma last_omap_is_Some {A B} (f : A -> option B) (l : list A) :
  is_Some (last (omap f l)) <-> exists x, x ∈ l /\ is_Some (f x).
Proof.
  induction l as [|a l IH]; simpl.
  - split; [by intros [? ?]|]. intros (x & Hx & _). by apply elem_of_nil in Hx.
  - destruct (f a) as [b|] eqn:Ha.
    + split; [|intros _; rewrite last_cons; destruct (last _); eauto].
      intros _. exists a. rewrite Ha. split; [left|eauto].
    + rewrite IH. split.
      * intros (x & Hx & Hf). exists x. split; [by right|done].
      * intros (x & Hx & Hf). apply elem_of_cons in Hx as [->|Hx].
        -- rewrite Ha in Hf. by destruct Hf.
        -- eauto.
Qed.

Lemma body_with_metadata_other lim search key st line st' :
  key ∉ keys -> body_with lim search st line = OK st' ->
  metadata st' !! key = metadata st !! key.
Proof.
  intros Hk. revert st'. apply body_with_cases.
  - intros key' v Hk' _ st' [= <-]. simpl.
    apply lookup_insert_ne. by intros ->.
  - intros _ _ st' H. unfold episode_branch in H.
    bind_cases H; try done; by injection H as <-.
  - intros _ _ _ st' H. unfold prob_branch in H.
    bind_cases H; try done; by injection H as <-.
  - by intros _ _ _ st' [= <-].
Qed.

Lemma loop_with_metadata_other lim search key lines st st' :
  key ∉ keys -> loop_with lim search lines st = OK st' ->
  metadata st' !! key = metadata st !! key.
Proof.
  intros Hk. revert st. induction lines as [|l lines IH]; intros st H.
  - by injection H as <-.
  - rewrite loop_with_cons in H.
    destruct (body_with lim search st (Py.strip l)) as [st1|] eqn:Hb; [|done].
    simpl in H. rewrite (IH _ H). by eapply body_with_metadata_other.
Qed.

(** X3: when the call returns, the metadata holds a key exactly when it is
    one of [alpha], [total], [seed] and some trimmed line of the input
    starts with its prefix: no other key is ever stored, and a key without
    a line is absent. *)
Theorem metadata_keys_present lim data m es ms ps key :
  parse_2048_training_data lim data = OK (m, es, ms, ps) ->
  is_Some (m !! key)
  <-> key ∈ keys
      /\ exists line, line ∈ lines_of data
                      /\ Py.startswith line (prefix key) = true.
Proof.
  intros H. apply parse_with_loop in H as (st & Hl & [= -> _ _ _]).
  destruct (decide (key ∈ keys)) as [Hk|Hk].
  - rewrite (loop_with_metadata _ _ key _ _ _ Hk Hl).
    fold (lines_of data).
    assert (forall o : option str,
               is_Some (match o with Some v => Some v | None => initial.(metadata) !! key end)
               <-> is_Some o) as ->.
    { intros [v|]; [done|]. simpl. rewrite lookup_empty. done. }
    rewrite last_omap_is_Some. split.
    + intros (line & Hline & Hs). split; [done|]. exists line. split; [done|].
      unfold stored in Hs. destruct (Py.startswith line (prefix key)); [done|].
      by destruct Hs.
    + intros (_ & line & Hline & Hs). exists line. split; [done|].
      unfold stored. rewrite Hs. eauto.
  - rewrite (loop_with_metadata_other _ _ key _ _ _ Hk Hl). simpl.
    rewrite lookup_empty. split; [by intros [? ?]|tauto].
Qed.

Lemma metadata_keys_present_witness :
  parse_2048_training_data 4300 (lit ("seed = 42" ++ nl ++ "beta = 3"))
  = OK ({["seed"%string := lit "42"]}, [0%Z], [Int 0], [zero])
  /\ ~ is_Some (({["seed"%string := lit "42"]} : gmap string str) !! "beta"%string).
Proof.
  assert (parse_2048_training_data 4300 (lit ("seed = 42" ++ nl ++ "beta = 3"))
          = OK ({["seed"%string := lit "42"]}, [0%Z], [Int 0], [zero])) as H
    by (vm_compute; reflexivity).
  split; [exact H|].
  intros Hs. apply (metadata_keys_present 4300 _ _ _ _ _ "beta" H) in Hs.
  destruct Hs as [Hk _]. apply elem_of_keys in Hk.
  destruct Hk as [Hk|[Hk|Hk]]; discriminate Hk.
Defined.

(** ** Episode numbers *)

Lemma leading_digits_decimal s :
  Forall (fun a => Py.isdecimal a = true) (leading_digits s).
Proof.
  induction s as [|a s IH]; simpl; [constructor|].
  destruct (Py.isdecimal a) eqn:Ha; by constructor.
Qed.

Lemma digit_value_nonneg a : Py.isdecimal a = true -> (0 <= Py.digit_value a)%Z.
Proof. destruct a as [[] [] [] [] [] [] [] []]; vm_compute; congruence. Qed.

Lemma digits_value_nonneg s :
  Forall (fun a => Py.isdecimal a = true) s -> (0 <= Py.digits_value s)%Z.
Proof.
  unfold Py.digits_value.
  assert (forall acc, (0 <= acc)%Z ->
            Forall (fun a => Py.isdecimal a = true) s ->
            (0 <= fold_left (fun acc a => 10 * acc + Py.digit_value a) s acc)%Z)
    as H; [|by apply H].
  induction s as [|a s IH]; intros acc Hacc Hs; simpl; [done|].
  inversion Hs as [|? ? Ha Hs']; subst. apply IH; [|done].
  pose proof (digit_value_nonneg a Ha). lia.
Qed.

Lemma episode_of_nonneg line : (0 <= episode_of line)%Z.
Proof. apply digits_value_nonneg, leading_digits_decimal. Qed.

Lemma py_min_zero l : Forall (fun x => (0 <= x)%Z) l -> py_min 0 l = 0%Z.
Proof.
  unfold py_min. induction 1 as [|x l Hx Hl IH]; simpl; [done|].
  by replace (0 `min` x)%Z with 0%Z by lia.
Qed.

Lemma parse_episodes lim data m es ms ps :
  parse_2048_training_data lim data = OK (m, es, ms, ps) ->
  es = 0%Z :: (episode_of <$> List.filter is_episode_line (lines_of data)).
Proof.
  intros H. apply parse_with_loop in H as (st & Hl & [= -> -> -> ->]).
  by apply (loop_episodes_means lim) in Hl as [Hl _].
Qed.

Lemma episodes_nonneg (lines : list str) :
  Forall (fun e => (0 <= e)%Z) (episode_of <$> lines).
Proof.
  apply Forall_fmap, Forall_forall. intros line _. apply episode_of_nonneg.
Qed.

(** X4: when the call returns, no episode is negative and the first one is
    the 0 that the function starts with; so [min(episodes)] is 0 and
    [x_min] is 0, whatever the input: the ticks always start at 0. *)
Theorem ticks_start_at_zero lim data m es ms ps :
  parse_2048_training_data lim data = OK (m, es, ms, ps) ->
  Forall (fun e => (0 <= e)%Z) es
  /\ exists es', es = 0%Z :: es' /\ py_min 0 es' = 0%Z /\ x_min 0 es' = 0%Z.
Proof.
  intros H. pose proof (parse_episodes _ _ _ _ _ _ H) as Hes.
  pose proof (episodes_nonneg (List.filter is_episode_line (lines_of data)))
    as Hall.
  split.
  - rewrite Hes. by constructor.
  - eexists. split; [exact Hes|].
    unfold x_min. rewrite (py_min_zero _ Hall). done.
Qed.

Lemma ticks_start_at_zero_witness :
  parse_2048_training_data 4300 (lit "7000 mean = 1 max = 2")
  = OK (∅, [0%Z; 7000%Z],
        [Int 0; Float (S754_finite false 4503599627370496 (-52))],
        [zero; zero])
  /\ Forall (fun e => (0 <= e)%Z) [0%Z; 7000%Z].
Proof.
  assert (parse_2048_training_data 4300 (lit "7000 mean = 1 max = 2")
          = OK (∅, [0%Z; 7000%Z],
                [Int 0; Float (S754_finite false 4503599627370496 (-52))],
                [zero; zero])) as H
    by (vm_compute; reflexivity).
  split; [exact H|].
  exact (proj1 (ticks_start_at_zero 4300 _ _ _ _ _ H)).
Defined.

(** ** The charts *)

Lemma py_max_lt x l b :
  (py_max x l < b)%Z <-> Forall (fun e => (e < b)%Z) (x :: l).
Proof.
  unfold py_max. revert x. induction l as [|y l IH]; intros x; simpl.
  - rewrite Forall_singleton. done.
  - rewrite IH, !Forall_cons. split.
    + intros [? ?]. split; [lia|]. split; [lia|done].
    + intros (? & ? & ?). split; [lia|done].
Qed.

Lemma parse_metadata_other lim data m es ms ps key :
  parse_2048_training_data lim data = OK (m, es, ms, ps) ->
  key ∉ keys -> m !! key = None.
Proof.
  intros H Hk. apply parse_with_loop in H as (st & Hl & [= -> _ _ _]).
  rewrite (loop_with_metadata_other _ _ key _ _ _ Hk Hl). apply lookup_empty.
Qed.

Lemma parse_lengths lim data m es ms ps :
  parse_2048_training_data lim data = OK (m, es, ms, ps) ->
  length es = length ms /\ length es = length ps.
Proof.
  intros H. apply parse_with_loop in H as (st & Hl & [= -> -> -> ->]).
  apply loop_with_lengths in Hl as (H0 & H1 & H2).
  rewrite failures_mean_search in H2. simpl in H0, H1, H2. lia.
Qed.

(** X5: the episodes that the parser returns begin with 0, and the ticks of
    either chart are computed from them before [plt.xticks] is called: if
    every episode is below 1000 the computation, and with it the plotting
    function, raises [ValueError]; otherwise it gives the eleven ticks
    0, s, 2s, ..., 10s where s is [100 * (max(episodes) // 1000)], which is
    at least 100. *)
Theorem ticks_need_an_episode_of_1000 lim data m es ms ps :
  parse_2048_training_data lim data = OK (m, es, ms, ps) ->
  exists es',
    es = 0%Z :: es'
    /\ (Forall (fun e => (e < 1000)%Z) es ->
        x_ticks es = Raise ValueError
        /\ plot_2048_training_results lim data = Raise ValueError)
    /\ (Exists (fun e => (1000 <= e)%Z) es ->
        (100 <= 100 * (py_max 0 es' / 1000))%Z
        /\ x_ticks es
           = OK (Some (map (fun i => (Z.of_nat i * (100 * (py_max 0 es' / 1000)))%Z)
                           (seq 0 11)))).
Proof.
  intros H. pose proof (parse_episodes _ _ _ _ _ _ H) as Hes.
  pose proof (episodes_nonneg (List.filter is_episode_line (lines_of data)))
    as Hall.
  set (es' := episode_of <$> List.filter is_episode_line (lines_of data)) in *.
  pose proof (py_min_zero _ Hall) as Hmin.
  assert (0 <= py_max 0 es')%Z as Hmax by apply py_max_ge.
  exists es'. split; [exact Hes|]. split.
  - intros Hlt. rewrite Hes in Hlt. apply py_max_lt in Hlt.
    assert (x_ticks es = Raise ValueError) as Ht.
    { apply x_ticks_same_block. rewrite Hes. simpl.
      rewrite Hmin. apply Z.eqb_eq.
      rewrite (Z.div_small (py_max 0 es')) by lia. done. }
    split; [exact Ht|].
    unfold plot_2048_training_results. rewrite H. simpl. unfold chart_of.
    by rewrite Ht.
  - intros Hge.
    assert (1000 <= py_max 0 es')%Z as Hk.
    { destruct (Z.lt_ge_cases (py_max 0 es') 1000) as [Hlt|]; [|done].
      apply py_max_lt in Hlt. rewrite Hes in Hge.
      apply Exists_exists in Hge as (e & He & Hge).
      rewrite Forall_forall in Hlt. specialize (Hlt e He). lia. }
    assert (1 <= py_max 0 es' / 1000)%Z as Hq
      by (apply Z.div_le_lower_bound; lia).
    split; [lia|]. rewrite Hes.
    rewrite x_ticks_blocks
      by (rewrite Hmin; change (0 / 1000)%Z with 0%Z; lia).
    do 2 f_equal. apply map_ext. intros i. rewrite Hmin.
    change (0 / 1000 * 1000)%Z with 0%Z.
    replace ((py_max 0 es' / 1000 * 1000 - 0) / 10)%Z
      with (py_max 0 es' / 1000 * 100)%Z; [lia|].
    apply (Z.div_unique _ _ _ 0); lia.
Qed.

Lemma ticks_need_an_episode_of_1000_witness :
  parse_2048_training_data 4300 (lit "2000 mean = 1 max = 2")
  = OK (∅, [0%Z; 2000%Z],
        [Int 0; Float (S754_finite false 4503599627370496 (-52))],
        [zero; zero])
  /\ x_ticks [0%Z; 2000%Z]
     = OK (Some [0; 200; 400; 600; 800; 1000; 1200; 1400; 1600; 1800; 2000]%Z).
Proof.
  assert (parse_2048_training_data 4300 (lit "2000 mean = 1 max = 2")
          = OK (∅, [0%Z; 2000%Z],
                [Int 0; Float (S754_finite false 4503599627370496 (-52))],
                [zero; zero])) as H
    by (vm_compute; reflexivity).
  split; [exact H|].
  destruct (ticks_need_an_episode_of_1000 4300 _ _ _ _ _ H)
    as (es' & E & _ & Hge).
  injection E as <-.
  refine (proj2 (Hge _)). apply Exists_cons_tl, Exists_cons_hd. lia.
Defined.

(** X6: when the plotting function returns, both charts have the parsed
    episodes on the x-axis, the first the means and the second the
    probabilities on the y-axis, and in each the two series have the same
    length, as [plt.plot] needs. *)
Theorem charts_plot_aligned_series lim data mean_chart prob_chart :
  plot_2048_training_results lim data = OK (mean_chart, prob_chart) ->
  exists m es ms ps,
    parse_2048_training_data lim data = OK (m, es, ms, ps)
    /\ xs mean_chart = es /\ ys mean_chart = ms
    /\ xs prob_chart = es /\ ys prob_chart = Float <$> ps
    /\ length (xs mean_chart) = length (ys mean_chart)
    /\ length (xs prob_chart) = length (ys prob_chart).
Proof.
  unfold plot_2048_training_results.
  destruct (parse_2048_training_data lim data) as [[[[m es] ms] ps]|] eqn:H;
    [|done].
  simpl. unfold chart_of.
  destruct (x_ticks es) as [ticks|]; [|done]. simpl. intros [= <- <-].
  exists m, es, ms, ps. simpl. rewrite length_fmap.
  destruct (parse_lengths _ _ _ _ _ _ H). done.
Qed.

Lemma charts_plot_aligned_series_witness :
  exists mean_chart prob_chart,
    plot_2048_training_results 4300
      (lit ("1000 mean = 1 max = 2" ++ nl ++ "2048 50%"))
    = OK (mean_chart, prob_chart)
    /\ length (xs prob_chart) = length (ys prob_chart).
Proof.
  eexists _, _.
  assert (forall c1 c2,
             plot_2048_training_results 4300
               (lit ("1000 mean = 1 max = 2" ++ nl ++ "2048 50%")) = OK (c1, c2) ->
             plot_2048_training_results 4300
               (lit ("1000 mean = 1 max = 2" ++ nl ++ "2048 50%")) = OK (c1, c2)
             /\ length (xs c2) = length (ys c2)) as G.
  { intros c1 c2 H. split; [exact H|].
    destruct (charts_plot_aligned_series 4300 _ _ _ H)
      as (m & es & ms & ps & _ & _ & _ & _ & _ & _ & Hl).
    exact Hl. }
  apply G. vm_compute. reflexivity.
Defined.

(** X7: the text box of a chart has a line exactly when the parsed metadata
    has a key: it is empty for the empty metadata only. *)
Theorem text_box_iff_metadata lim data m es ms ps episodes series c :
  parse_2048_training_data lim data = OK (m, es, ms, ps) ->
  chart_of m episodes series = OK c ->
  info_text c = [] <-> m = ∅.
Proof.
  intros H Hc. unfold chart_of in Hc.
  destruct (x_ticks episodes) as [ticks|]; [|done]. injection Hc as <-. simpl.
  unfold info. split.
  - intros Hi. apply map_eq. intros key. rewrite lookup_empty.
    destruct (decide (key ∈ keys)) as [Hk|Hk];
      [|by eapply parse_metadata_other].
    apply elem_of_keys in Hk as [->|[->| ->]];
      destruct (m !! "alpha"%string), (m !! "total"%string),
        (m !! "seed"%string); done.
  - intros ->. by rewrite !lookup_empty.
Qed.

Lemma text_box_iff_metadata_witness :
  parse_2048_training_data 4300 (lit "7000 mean = 1 max = 2")
  = OK (∅, [0%Z; 7000%Z],
        [Int 0; Float (S754_finite false 4503599627370496 (-52))],
        [zero; zero])
  /\ exists c, chart_of ∅ [0%Z; 7000%Z] [] = OK c /\ info_text c = [].
Proof.
  assert (parse_2048_training_data 4300 (lit "7000 mean = 1 max = 2")
          = OK (∅, [0%Z; 7000%Z],
                [Int 0; Float (S754_finite false 4503599627370496 (-52))],
                [zero; zero])) as H
    by (vm_compute; reflexivity).
  split; [exact H|].
  eexists. split; [vm_compute; reflexivity|].
  refine (proj2 (text_box_iff_metadata 4300 _ _ _ _ _ [0%Z; 7000%Z] [] _ H _)
                eq_refl).
  vm_compute. reflexivity.
Defined.

(** ** What the result depends on *)

Section Depends.

Variable lim : nat.

Lemma loop_skip l lines st :
  recognized (Py.strip l) = false -> loop lim (l :: lines) st = loop lim lines st.
Proof.
  intros H. rewrite loop_cons. unfold body.
  by rewrite body_with_unrecognized.
Qed.

Lemma loop_recognized lines st :
  loop lim lines st
  = loop lim (List.filter (fun l => recognized (Py.strip l)) lines) st.
Proof.
  revert st. induction lines as [|l lines IH]; intros st; [done|].
  cbn [List.filter]. destruct (recognized (Py.strip l)) eqn:Hr.
  - rewrite !loop_cons.
    destruct (body lim st (Py.strip l)) as [st1|e]; [exact (IH st1)|done].
  - rewrite loop_skip by done. apply IH.
Qed.

Lemma loop_trimmed lines lines' st :
  Py.strip <$> lines = Py.strip <$> lines' ->
  loop lim lines st = loop lim lines' st.
Proof.
  revert lines' st. induction lines as [|l lines IH]; intros [|l' lines'] st H;
    try done.
  rewrite !fmap_cons in H. injection H as Hl H.
  rewrite !loop_cons, Hl.
  destruct (body lim st (Py.strip l')) as [st1|e]; [exact (IH _ st1 H)|done].
Qed.

Lemma filter_fmap_strip (f : str -> bool) lines :
  List.filter f (Py.strip <$> lines)
  = Py.strip <$> List.filter (fun l => f (Py.strip l)) lines.
Proof.
  induction lines as [|l lines IH]; [done|]. rewrite fmap_cons. simpl.
  destruct (f (Py.strip l)); [rewrite fmap_cons|]; by rewrite IH.
Qed.

End Depends.

(** X8: the result of a call, values or exception, depends only on the
    trimmed lines that some branch of the loop recognises, in their order:
    two inputs with the same such lines give the same result, whatever
    other lines, blank lines and indentation they have. *)
Theorem recognized_lines_decide lim data data' :
  List.filter recognized (lines_of data) = List.filter recognized (lines_of data') ->
  parse_2048_training_data lim data = parse_2048_training_data lim data'.
Proof.
  unfold lines_of. rewrite !filter_fmap_strip. intros H.
  unfold parse_2048_training_data, parse_with. fold (loop lim).
  rewrite (loop_recognized lim (Py.split (Py.strip data) _)).
  rewrite (loop_recognized lim (Py.split (Py.strip data') _)).
  by rewrite (loop_trimmed lim _ _ initial H).
Qed.

Lemma recognized_lines_decide_witness :
  parse_2048_training_data 4300
    (lit ("TD learning" ++ nl ++ nl ++ "  seed = 1" ++ nl ++ tab ++ "2048 3.25%"))
  = parse_2048_training_data 4300 (lit ("seed = 1" ++ nl ++ "2048 3.25%")).
Proof.
  apply recognized_lines_decide. vm_compute. reflexivity.
Defined.

Lemma stored_is_metadata_line key line v :
  key ∈ keys -> stored key line = Some v -> is_metadata_line line = true.
Proof.
  intros Hk Hs. unfold stored in Hs.
  destruct (Py.startswith line (prefix key)) eqn:Hp; [|done].
  apply existsb_exists. exists key. by rewrite <- list_elem_of_In.
Qed.

Lemma omap_stored_metadata_lines key lines :
  key ∈ keys ->
  omap (stored key) (List.filter is_metadata_line lines)
  = omap (stored key) lines.
Proof.
  intros Hk. induction lines as [|l lines IH]; [done|]. cbn [List.filter].
  destruct (is_metadata_line l) eqn:Hm.
  - change (omap ?f (?x :: ?l))
      with (match f x with Some y => y :: omap f l | None => omap f l end).
    by rewrite IH.
  - rewrite IH.
    change (omap (stored key) (l :: lines))
      with (match stored key l with
            | Some y => y :: omap (stored key) lines
            | None => omap (stored key) lines
            end).
    destruct (stored key l) as [v|] eqn:Hs; [|done].
    apply (stored_is_metadata_line _ _ _ Hk) in Hs. congruence.
Qed.

Lemma parse_metadata lim data m es ms ps key :
  parse_2048_training_data lim data = OK (m, es, ms, ps) -> key ∈ keys ->
  m !! key = last (omap (stored key) (lines_of data)).
Proof.
  intros H Hk. apply parse_with_loop in H as (st & Hl & [= -> _ _ _]).
  rewrite (loop_with_metadata _ _ key _ _ _ Hk Hl). fold (lines_of data).
  destruct (last _); [done|]. apply lookup_empty.
Qed.

(** X9: the metadata returned depends only on the metadata lines: two
    inputs on which the call returns and which have the same trimmed lines
    starting with a prefix, in the same order, give the same metadata,
    whatever their episode and probability lines. *)
Theorem metadata_from_metadata_lines lim data data' m es ms ps m' es' ms' ps' :
  parse_2048_training_data lim data = OK (m, es, ms, ps) ->
  parse_2048_training_data lim data' = OK (m', es', ms', ps') ->
  List.filter is_metadata_line (lines_of data)
  = List.filter is_metadata_line (lines_of data') ->
  m = m'.
Proof.
  intros H H' Hl. apply map_eq. intros key.
  destruct (decide (key ∈ keys)) as [Hk|Hk].
  - rewrite (parse_metadata _ _ _ _ _ _ _ H Hk),
      (parse_metadata _ _ _ _ _ _ _ H' Hk).
    rewrite <- (omap_stored_metadata_lines key (lines_of data)) by done.
    rewrite <- (omap_stored_metadata_lines key (lines_of data')) by done.
    by rewrite Hl.
  - rewrite (parse_metadata_other _ _ _ _ _ _ _ H Hk).
    by rewrite (parse_metadata_other _ _ _ _ _ _ _ H' Hk).
Qed.

Lemma metadata_from_metadata_lines_witness :
  parse_2048_training_data 4300
    (lit ("seed = 1" ++ nl ++ "1000 mean = 1 max = 2"))
  = OK ({["seed"%string := lit "1"]}, [0%Z; 1000%Z],
        [Int 0; Float (S754_finite false 4503599627370496 (-52))],
        [zero; zero])
  /\ parse_2048_training_data 4300 (lit ("2048 50%" ++ nl ++ "seed = 1"))
     = OK ({["seed"%string := lit "1"]}, [0%Z], [Int 0],
           [S754_finite false 7036874417766400 (-47)])
  /\ ({["seed"%string := lit "1"]} : gmap string str) = {["seed"%string := lit "1"]}.
Proof.
  assert (parse_2048_training_data 4300
            (lit ("seed = 1" ++ nl ++ "1000 mean = 1 max = 2"))
          = OK ({["seed"%string := lit "1"]}, [0%Z; 1000%Z],
                [Int 0; Float (S754_finite false 4503599627370496 (-52))],
                [zero; zero])) as H
    by (vm_compute; reflexivity).
  assert (parse_2048_training_data 4300 (lit ("2048 50%" ++ nl ++ "seed = 1"))
          = OK ({["seed"%string := lit "1"]}, [0%Z], [Int 0],
                [S754_finite false 7036874417766400 (-47)])) as H'
    by (vm_compute; reflexivity).
  split; [exact H|]. split; [exact H'|].
  exact (metadata_from_metadata_lines 4300 _ _ _ _ _ _ _ _ _ _ H H' eq_refl).
Defined.

Lemma filter_episode_number_lines lines :
  List.filter is_episode_line (List.filter is_number_line lines)
  = List.filter is_episode_line lines.
Proof.
  induction lines as [|l lines IH]; [done|]. cbn [List.filter].
  unfold is_number_line at 1.
  destruct (is_episode_line l) eqn:He; cbn [orb List.filter].
  - by rewrite He, IH.
  - destruct (is_prob_line l); cbn [List.filter]; by rewrite ?He, IH.
Qed.

Lemma tile_probabilities_number_lines cur lines :
  tile_probabilities cur (List.filter is_number_line lines)
  = tile_probabilities cur lines.
Proof.
  revert cur. induction lines as [|l lines IH]; intros cur; [done|].
  cbn [List.filter tile_probabilities]. unfold is_number_line at 1.
  destruct (is_episode_line l) eqn:He; cbn [orb tile_probabilities].
  - by rewrite He, IH.
  - destruct (is_prob_line l) eqn:Hp; cbn [tile_probabilities]; [|apply IH].
    rewrite He, Hp. destruct (prob_of l); [apply IH|done].
Qed.

Lemma parse_means lim data m es ms ps :
  parse_2048_training_data lim data = OK (m, es, ms, ps) ->
  Some <$> ms
  = Some (Int 0)
    :: (fmap Float <$> (mean_of <$> List.filter is_episode_line (lines_of data))).
Proof.
  intros H. apply parse_with_loop in H as (st & Hl & [= -> -> -> ->]).
  by apply (loop_episodes_means lim) in Hl as [_ Hl].
Qed.

Lemma parse_prob2048 lim data m es ms ps :
  parse_2048_training_data lim data = OK (m, es, ms, ps) ->
  tile_probabilities zero (lines_of data) = Some ps.
Proof.
  intros H. apply parse_with_loop in H as (st & Hl & [= -> -> -> ->]).
  destruct (loop_tile_probabilities lim _ _ _ [] zero Hl eq_refl)
    as (ps & Hps & ->).
  exact Hps.
Qed.

(** X10: the three series returned depend only on the episode lines and
    the probability lines: two inputs on which the call returns and which
    have the same such trimmed lines, in the same order, give the same
    [episodes], [means] and [prob2048], whatever their metadata lines. *)
Theorem series_from_number_lines lim data data' m es ms ps m' es' ms' ps' :
  parse_2048_training_data lim data = OK (m, es, ms, ps) ->
  parse_2048_training_data lim data' = OK (m', es', ms', ps') ->
  List.filter is_number_line (lines_of data)
  = List.filter is_number_line (lines_of data') ->
  es = es' /\ ms = ms' /\ ps = ps'.
Proof.
  intros H H' Hl.
  pose proof (filter_episode_number_lines (lines_of data)) as E.
  pose proof (filter_episode_number_lines (lines_of data')) as E'.
  rewrite Hl, E' in E. split; [|split].
  - rewrite (parse_episodes _ _ _ _ _ _ H), (parse_episodes _ _ _ _ _ _ H').
    by rewrite E.
  - apply (inj (fmap Some)).
    rewrite (parse_means _ _ _ _ _ _ H), (parse_means _ _ _ _ _ _ H').
    by rewrite E.
  - pose proof (parse_prob2048 _ _ _ _ _ _ H) as P.
    pose proof (parse_prob2048 _ _ _ _ _ _ H') as P'.
    rewrite <- tile_probabilities_number_lines in P, P'.
    rewrite Hl in P. congruence.
Qed.

Lemma series_from_number_lines_witness :
  parse_2048_training_data 4300
    (lit ("seed = 1" ++ nl ++ "1000 mean = 1 max = 2"))
  = OK ({["seed"%string := lit "1"]}, [0%Z; 1000%Z],
        [Int 0; Float (S754_finite false 4503599627370496 (-52))],
        [zero; zero])
  /\ parse_2048_training_data 4300
       (lit ("1000 mean = 1 max = 2" ++ nl ++ "alpha = 3"))
     = OK ({["alpha"%string := lit "3"]}, [0%Z; 1000%Z],
           [Int 0; Float (S754_finite false 4503599627370496 (-52))],
           [zero; zero])
  /\ [0%Z; 1000%Z] = [0%Z; 1000%Z].
Proof.
  assert (parse_2048_training_data 4300
            (lit ("seed = 1" ++ nl ++ "1000 mean = 1 max = 2"))
          = OK ({["seed"%string := lit "1"]}, [0%Z; 1000%Z],
                [Int 0; Float (S754_finite false 4503599627370496 (-52))],
                [zero; zero])) as H
    by (vm_compute; reflexivity).
  assert (parse_2048_training_data 4300
            (lit ("1000 mean = 1 max = 2" ++ nl ++ "alpha = 3"))
          = OK ({["alpha"%string := lit "3"]}, [0%Z; 1000%Z],
                [Int 0; Float (S754_finite false 4503599627370496 (-52))],
                [zero; zero])) as H'
    by (vm_compute; reflexivity).
  split; [exact H|]. split; [exact H'|].
  exact (proj1 (series_from_number_lines 4300 _ _ _ _ _ _ _ _ _ _ H H' eq_refl)).
Defined.

(** ** Blanks around the input *)

Lemma lstrip_blanks ws s :
  Forall (fun a => Py.isspace a = true) ws -> Py.lstrip (ws ++ s) = Py.lstrip s.
Proof. induction 1 as [|a ws Ha _ IH]; simpl; [done|]. by rewrite Ha. Qed.

Lemma rstrip_blanks s ws :
  Forall (fun a => Py.isspace a = true) ws -> Py.rstrip (s ++ ws) = Py.rstrip s.
Proof.
  intros H. unfold Py.rstrip. rewrite rev_app_distr, lstrip_blanks; [done|].
  by apply Forall_rev.
Qed.

Lemma lstrip_app_blanks s ws :
  Forall (fun a => Py.isspace a = true) ws ->
  Py.rstrip (Py.lstrip (s ++ ws)) = Py.rstrip (Py.lstrip s).
Proof.
  intros H. induction s as [|a s IH].
  - simpl. rewrite <- (app_nil_r ws), lstrip_blanks by done. done.
  - change ((a :: s) ++ ws) with (a :: s ++ ws). cbn [Py.lstrip].
    destruct (Py.isspace a); [done|].
    apply (rstrip_blanks (a :: s) ws H).
Qed.

Lemma strip_blanks ws s ws' :
  Forall (fun a => Py.isspace a = true) ws ->
  Forall (fun a => Py.isspace a = true) ws' ->
  Py.strip (ws ++ s ++ ws') = Py.strip s.
Proof.
  intros H H'. unfold Py.strip. rewrite lstrip_blanks by done.
  by apply lstrip_app_blanks.
Qed.

(** X11: blanks, line feeds among them, before and after the input do not
    change the result of a call. *)
Theorem blanks_around_input_ignored lim ws data ws' :
  Forall (fun a => Py.isspace a = true) ws ->
  Forall (fun a => Py.isspace a = true) ws' ->
  parse_2048_training_data lim (ws ++ data ++ ws')
  = parse_2048_training_data lim data.
Proof.
  intros H H'. unfold parse_2048_training_data, parse_with.
  by rewrite strip_blanks.
Qed.

Lemma blanks_around_input_ignored_witness :
  parse_2048_training_data 4300 (lit (nl ++ " ") ++ lit "seed = 1" ++ lit (nl ++ nl))
  = parse_2048_training_data 4300 (lit "seed = 1").
Proof.
  apply blanks_around_input_ignored; repeat constructor.
Defined.

(** ** The numbers that the secondary searches capture *)

Lemma greedy_longest {R} c (k : nat -> str -> option R) pos u t r :
  Forall (fun a => Re.mem c a = true) u ->
  match t with [] => True | a :: _ => Re.mem c a = false end ->
  k (pos + length u) t = Some r ->
  Re.greedy c k pos (u ++ t) = Some r.
Proof.
  revert pos. induction u as [|x u IH]; intros pos Hu Ht Hk.
  - rewrite Nat.add_0_r in Hk. destruct t as [|a t]; simpl; [done|].
    by rewrite Ht.
  - inversion Hu as [|? ? Hx Hu']; subst. simpl. rewrite Hx.
    rewrite (IH (S pos)); [done|done|done|].
    rewrite <- Hk. f_equal. simpl. lia.
Qed.

Lemma search_from_skip c p pos pre t :
  Forall (fun a => Re.mem c a = false) pre ->
  Re.search_from (Re.One c :: p) pos (pre ++ t)
  = Re.search_from (Re.One c :: p) (pos + length pre) t.
Proof.
  revert pos. induction pre as [|a pre IH]; intros pos H.
  - by rewrite Nat.add_0_r.
  - inversion H as [|? ? Ha H']; subst.
    change ((a :: pre) ++ t) with (a :: pre ++ t).
    cbn [Re.search_from Re.exec]. rewrite Ha, IH by done.
    f_equal. simpl. lia.
Qed.

Lemma lstrip_run u a t :
  Forall (fun c => Py.isspace c = true) u -> Py.isspace a = false ->
  Py.lstrip (u ++ a :: t) = a :: t.
Proof.
  induction 1 as [|c u Hc _ IH]; intros Ha; simpl.
  - by rewrite Ha.
  - rewrite Hc. by apply IH.
Qed.

Lemma past_run_app f u a t :
  Forall (fun c => f c = true) u -> f a = false ->
  past_run f (u ++ a :: t) = a :: t.
Proof.
  induction 1 as [|c u Hc _ IH]; intros Ha; simpl.
  - by rewrite Ha.
  - rewrite Hc. by apply IH.
Qed.

Lemma run_of_app f u a t :
  Forall (fun c => f c = true) u -> f a = false ->
  run_of f (u ++ a :: t) = u.
Proof.
  induction 1 as [|c u Hc _ IH]; intros Ha; simpl.
  - by rewrite Ha.
  - rewrite Hc. by rewrite IH.
Qed.

Lemma space_not_digitdot a :
  Py.isspace a = true -> Re.mem Re.DigitDot a = false.
Proof.
  intros H. destruct (Re.mem Re.DigitDot a) eqn:Hd; [|done].
  apply digitdot_not_space in Hd. congruence.
Qed.

Lemma digit_not_m a : Py.isdecimal a = true -> Re.mem (Re.Chr "m") a = false.
Proof. destruct a as [[] [] [] [] [] [] [] []]; vm_compute; congruence. Qed.

Lemma space_not_m a : Py.isspace a = true -> Re.mem (Re.Chr "m") a = false.
Proof. destruct a as [[] [] [] [] [] [] [] []]; vm_compute; congruence. Qed.

Lemma space_not_2 a : Py.isspace a = true -> Re.mem (Re.Chr "2") a = false.
Proof. destruct a as [[] [] [] [] [] [] [] []]; vm_compute; congruence. Qed.

(** The match of [mean_re] at the word [mean] of an episode line. *)
Lemma exec_mean_re pos u1 u2 d u3 w t :
  Forall (fun a => Py.isspace a = true) u1 ->
  Forall (fun a => Py.isspace a = true) u2 ->
  Forall (fun a => Re.mem Re.DigitDot a = true) (d :: u3) ->
  Py.isspace w = true ->
  exists b e,
    Re.exec mean_re (0, 0) pos
            (lit "mean" ++ u1 ++ "="%char :: u2 ++ d :: u3 ++ w :: t)
    = Some (e, (b, e))
    /\ b = pos + 4 + length u1 + 1 + length u2
    /\ e = b + 1 + length u3.
Proof.
  intros Hu1 Hu2 Hd Hw. inversion Hd as [|? ? Hd1 Hd3]; subst.
  eexists _, _. split; [|split].
  - cbn -[Re.greedy Py.isspace Py.isdecimal Py.isdot].
    apply greedy_longest; [exact Hu1|reflexivity|].
    cbn -[Re.greedy Py.isspace Py.isdecimal Py.isdot].
    apply greedy_longest; [exact Hu2|by apply digitdot_not_space|].
    cbn -[Re.greedy Py.isspace Py.isdecimal Py.isdot].
    cbn in Hd1. rewrite Hd1.
    apply greedy_longest; [exact Hd3|by apply space_not_digitdot|].
    reflexivity.
  - lia.
  - lia.
Qed.

(** The match of [prob_re] at the [2048] of a probability line. *)
Lemma exec_prob_re pos w ws d u3 t :
  Forall (fun a => Py.isspace a = true) (w :: ws) ->
  Forall (fun a => Re.mem Re.DigitDot a = true) (d :: u3) ->
  exists b e,
    Re.exec prob_re (0, 0) pos
            (lit "2048" ++ w :: ws ++ d :: u3 ++ "%"%char :: t)
    = Some (S e, (b, e))
    /\ b = pos + 4 + 1 + length ws
    /\ e = b + 1 + length u3.
Proof.
  intros Hw Hd. inversion Hw as [|? ? Hw1 Hws]; subst.
  inversion Hd as [|? ? Hd1 Hd3]; subst.
  eexists _, _. split; [|split].
  - cbn -[Re.greedy Py.isspace Py.isdecimal Py.isdot].
    rewrite Hw1.
    apply greedy_longest; [exact Hws|by apply digitdot_not_space|].
    cbn -[Re.greedy Py.isspace Py.isdecimal Py.isdot].
    cbn in Hd1. rewrite Hd1.
    apply greedy_longest; [exact Hd3|reflexivity|].
    reflexivity.
  - lia.
  - lia.
Qed.

(** X12: on a line that matches the episode pattern, the secondary search
    captures the number that the line gives after its first [mean =]: the
    mean recorded is the one that the episode pattern saw, and it is never
    the empty text. *)
Theorem mean_search_captures_the_mean line :
  is_episode_line line = true ->
  exists m, mean_search line = Some m
            /\ Re.group1 m = mean_text line /\ mean_text line <> [].
Proof.
  intros H. apply match_sound in H as [r H]. cbn in H.
  destruct H as (_ & a & u & t & -> & Ha & Hu & w & ws & t0 & -> & Hw & Hws
                 & c1 & t1 & -> & E1 & c2 & t2 & -> & E2 & c3 & t3 & -> & E3
                 & c4 & t4 & -> & E4 & u1 & t5 & -> & Hu1 & c5 & t6 & -> & E5
                 & u2 & t7 & -> & Hu2 & d & u3 & t8 & -> & Hd & Hu3
                 & w2 & ws2 & t9 & -> & Hw2 & _).
  apply Ascii.eqb_eq in E1 as ->, E2 as ->, E3 as ->, E4 as ->, E5 as ->.
  assert (Forall (fun c => Py.isdecimal c = true) (a :: u)) as Hau
    by by constructor.
  assert (Forall (fun c => Py.isspace c = true) (w :: ws)) as Hwws
    by by constructor.
  assert (Forall (fun c => Re.mem Re.DigitDot c = true) (d :: u3)) as Hdu
    by by constructor.
  set (rest := lit "mean" ++ u1 ++ "="%char :: u2 ++ d :: u3 ++ w2 :: ws2 ++ t9).
  set (pre := (a :: u) ++ w :: ws).
  assert (a :: u ++ w :: ws ++ "m"%char :: "e"%char :: "a"%char :: "n"%char
            :: u1 ++ "="%char :: u2 ++ d :: u3 ++ w2 :: ws2 ++ t9
          = pre ++ rest) as ->.
  { subst pre rest. simpl. by rewrite <- app_assoc. }
  assert (mean_text (pre ++ rest) = d :: u3) as Htext.
  { unfold mean_text. subst pre rest. rewrite <- app_assoc.
    change ((w :: ws) ++ ?x) with (w :: ws ++ x).
    rewrite (past_run_app Py.isdecimal (a :: u) w) by auto using space_not_digit.
    change (lit "mean" ++ ?x)
      with ("m"%char :: "e"%char :: "a"%char :: "n"%char :: x).
    change (w :: ws ++ ?x) with ((w :: ws) ++ x).
    rewrite (lstrip_run (w :: ws) "m") by done.
    change (drop 4 (?c1 :: ?c2 :: ?c3 :: ?c4 :: ?x)) with x.
    rewrite (lstrip_run u1 "=") by done.
    change (drop 1 (?c1 :: ?x)) with x.
    rewrite (lstrip_run u2 d) by auto using digitdot_not_space.
    change (d :: u3 ++ ?x) with ((d :: u3) ++ x).
    apply run_of_app; auto using space_not_digitdot. }
  destruct (exec_mean_re (length pre) u1 u2 d u3 w2 (ws2 ++ t9) Hu1 Hu2 Hdu Hw2)
    as (b & e & Hexec & Hb & He).
  fold rest in Hexec.
  assert (Re.search mean_re (pre ++ rest)
          = Some {| Re.m_string := pre ++ rest; Re.m_start := length pre;
                    Re.m_end := e; Re.m_group := (b, e) |}) as Hsearch.
  { unfold Re.search.
    change mean_re with (Re.One (Re.Chr "m") :: tl mean_re) at 1.
    rewrite search_from_skip.
    - change (Re.One (Re.Chr "m") :: tl mean_re) with mean_re.
      change (0 + length pre) with (length pre).
      subst rest. cbn [lit list_ascii_of_string app] in *.
      cbn [Re.search_from]. rewrite Hexec. done.
    - subst pre. apply Forall_app. split.
      + eapply Forall_impl; [exact Hau|]. intros c. apply digit_not_m.
      + eapply Forall_impl; [exact Hwws|]. intros c. apply space_not_m. }
  eexists. split; [exact Hsearch|]. split; [|by rewrite Htext].
  rewrite Htext. unfold Re.group1. cbn [Re.m_group Re.m_string fst snd].
  subst rest.
  replace (pre ++ lit "mean" ++ u1 ++ "="%char :: u2 ++ d :: u3 ++ w2 :: ws2 ++ t9)
    with ((pre ++ lit "mean" ++ u1 ++ "="%char :: u2) ++ (d :: u3)
          ++ w2 :: ws2 ++ t9)
    by (repeat first [rewrite <- app_assoc | progress simpl]; done).
  apply take_drop_middle_app.
  - repeat first [rewrite length_app
                 | progress cbn [length lit list_ascii_of_string app]].
    lia.
  - cbn [length]. lia.
Qed.

(** X13: on a line that matches the probability pattern, the secondary
    search captures the number that the line gives after [2048]. *)
Theorem prob_search_captures_the_percentage line :
  is_prob_line line = true ->
  exists m, Re.search prob_re line = Some m
            /\ Re.group1 m = prob_text line /\ prob_text line <> [].
Proof.
  intros H. apply match_sound in H as [r H]. cbn in H.
  destruct H as (_ & u & t & -> & Hu & c1 & t1 & -> & E1 & c2 & t2 & -> & E2
                 & c3 & t3 & -> & E3 & c4 & t4 & -> & E4
                 & w & ws & t5 & -> & Hw & Hws & d & ds & t6 & -> & Hd & Hds
                 & c5 & t7 & -> & E5 & _).
  apply Ascii.eqb_eq in E1 as ->, E2 as ->, E3 as ->, E4 as ->, E5 as ->.
  assert (Forall (fun c => Py.isspace c = true) (w :: ws)) as Hwws
    by by constructor.
  assert (Forall (fun c => Re.mem Re.DigitDot c = true) (d :: ds)) as Hdu
    by by constructor.
  set (rest := lit "2048" ++ w :: ws ++ d :: ds ++ "%"%char :: t7).
  change (u ++ "2"%char :: "0"%char :: "4"%char :: "8"%char
            :: w :: ws ++ d :: ds ++ "%"%char :: t7) with (u ++ rest).
  assert (prob_text (u ++ rest) = d :: ds) as Htext.
  { unfold prob_text. subst rest.
    cbn [lit list_ascii_of_string app].
    rewrite (lstrip_run u "2") by done.
    change (drop 4 (?c1 :: ?c2 :: ?c3 :: ?c4 :: ?x)) with x.
    change (w :: ws ++ ?x) with ((w :: ws) ++ x).
    rewrite (lstrip_run (w :: ws) d) by auto using digitdot_not_space.
    change (d :: ds ++ ?x) with ((d :: ds) ++ x).
    by apply run_of_app. }
  destruct (exec_prob_re (length u) w ws d ds t7 Hwws Hdu)
    as (b & e & Hexec & Hb & He).
  fold rest in Hexec.
  assert (Re.search prob_re (u ++ rest)
          = Some {| Re.m_string := u ++ rest; Re.m_start := length u;
                    Re.m_end := S e; Re.m_group := (b, e) |}) as Hsearch.
  { unfold Re.search.
    change prob_re with (Re.One (Re.Chr "2") :: tl prob_re) at 1.
    rewrite search_from_skip.
    - change (Re.One (Re.Chr "2") :: tl prob_re) with prob_re.
      change (0 + length u) with (length u).
      subst rest. cbn [lit list_ascii_of_string app] in *.
      cbn [Re.search_from]. rewrite Hexec. done.
    - eapply Forall_impl; [exact Hu|]. intros c. apply space_not_2. }
  eexists. split; [exact Hsearch|]. split; [|by rewrite Htext].
  rewrite Htext. unfold Re.group1. cbn [Re.m_group Re.m_string fst snd].
  subst rest.
  replace (u ++ lit "2048" ++ w :: ws ++ d :: ds ++ "%"%char :: t7)
    with ((u ++ lit "2048" ++ w :: ws) ++ (d :: ds) ++ "%"%char :: t7)
    by (repeat first [rewrite <- app_assoc | progress simpl]; done).
  apply take_drop_middle_app.
  - repeat first [rewrite length_app
                 | progress cbn [length lit list_ascii_of_string app]].
    lia.
  - cbn [length]. lia.
Qed.

Lemma mean_search_captures_the_mean_witness :
  mean_text (lit "5 mean = 1.5 max = 2 mean = 3") = lit "1.5"
  /\ exists m, mean_search (lit "5 mean = 1.5 max = 2 mean = 3") = Some m
               /\ Re.group1 m = mean_text (lit "5 mean = 1.5 max = 2 mean = 3").
Proof.
  split; [reflexivity|].
  destruct (mean_search_captures_the_mean (lit "5 mean = 1.5 max = 2 mean = 3")
              eq_refl) as (m & Hs & Hg & _).
  exists m. split; assumption.
Defined.

Lemma prob_search_captures_the_percentage_witness :
  prob_text (lit "2048 3.25% 2048 7%") = lit "3.25"
  /\ exists m, Re.search prob_re (lit "2048 3.25% 2048 7%") = Some m
               /\ Re.group1 m = prob_text (lit "2048 3.25% 2048 7%").
Proof.
  split; [reflexivity|].
  destruct (prob_search_captures_the_percentage (lit "2048 3.25% 2048 7%")
              eq_refl) as (m & Hs & Hg & _).
  exists m. split; assumption.
Defined.

(** ** The calls of the plotting function *)

Section CallFacts.

Variable E : Type.
Variable raises : list Plt.call -> Plt.call -> option E.

Lemma bind_call {B} c (f : unit -> plt E B) calls :
  (call_ raises c ≫= f) calls
  = match raises calls c with
    | Some x => (calls, Raises (Theirs c x))
    | None => f tt (calls ++ [c])
    end.
Proof.
  unfold mbind, plt_bind, call_. by destruct (raises calls c).
Qed.

Lemma call_cases c calls :
  call_ raises c calls
  = match raises calls c with
    | Some x => (calls, Raises (Theirs c x))
    | None => (calls ++ [c], Returns tt)
    end.
Proof. reflexivity. Qed.

Lemma bind_lift {A B} (r : result A) (f : A -> plt E B) calls :
  (lift r ≫= f) calls
  = match r with
    | OK a => f a calls
    | Raise e => (calls, Raises (Own e))
    end.
Proof. by destruct r. Qed.

Lemma bind_ret {A B} (a : A) (f : A -> plt E B) calls :
  (mret a ≫= f) calls = f a calls.
Proof. reflexivity. Qed.

Lemma ret_cases {A} (a : A) calls :
  (mret a : plt E A) calls = (calls, Returns a).
Proof. reflexivity. Qed.

Lemma bind_assoc {A B C} (m : plt E A) (f : A -> plt E B) (g : B -> plt E C)
      calls :
  ((m ≫= f) ≫= g) calls = (m ≫= λ a, f a ≫= g) calls.
Proof.
  unfold mbind, plt_bind. by destruct (m calls) as [calls' [a|x]].
Qed.

Lemma bind_ended {A B} (m : plt E A) (f : A -> plt E B) calls :
  (m ≫= f) calls
  = match m calls with
    | (calls', Returns a) => f a calls'
    | (calls', Raises x) => (calls', Raises x)
    end.
Proof. reflexivity. Qed.

Lemma saved_app calls calls' :
  saved (calls ++ calls') = saved calls ++ saved calls'.
Proof. apply omap_app. Qed.

Lemma saved_snoc calls c :
  saved (calls ++ [c])
  = saved calls ++ match c with Plt.savefig path => [path] | _ => [] end.
Proof. rewrite saved_app. by destruct c. Qed.

#[local] Ltac saved_calls :=
  rewrite ?saved_snoc; cbn [app]; rewrite ?app_nil_r; reflexivity.

#[local] Ltac leaf :=
  let E := fresh in
  intros E; injection E as <- <-;
  first [ split; [assumption|saved_calls]
        | split; [eauto|saved_calls]
        | split; [done|unfold opening; rewrite <- ?app_assoc; reflexivity] ].

#[local] Ltac call :=
  first [rewrite bind_call|rewrite call_cases];
  match goal with
  | |- context [raises ?calls ?c] =>
    let H := fresh "Hr" in destruct (raises calls c) eqn:H; [leaf|]
  end.

(** How one chart ends: returned, with its file saved if [save_path] is
    given; left by the [ValueError] of [range], after its first six
    calls; or left by the exception of a call, with no file saved. *)
Lemma draw_cases metadata episodes series label save_path suffix calls calls' o :
  draw raises metadata episodes series label save_path suffix calls
  = (calls', o) ->
  match o with
  | Returns _ =>
    (exists ticks, x_ticks episodes = OK ticks)
    /\ saved calls'
       = saved calls
         ++ (if given save_path then [path_of save_path ++ lit suffix] else [])
  | Raises (Own e) =>
    x_ticks episodes = Raise e
    /\ calls' = calls ++ opening episodes series label
  | Raises (Theirs c x) => raises calls' c = Some x /\ saved calls' = saved calls
  end.
Proof.
  unfold draw. do 6 call.
  rewrite bind_lift. destruct (x_ticks episodes) as [ticks|e] eqn:Ht; [|leaf].
  cbv zeta.
  destruct (info "Alpha: " "alpha" metadata ++ info "Total: " "total" metadata
            ++ info "Seed: " "seed" metadata) as [|line info_text];
    destruct ticks as [ticks|]; destruct (given save_path);
    repeat first [rewrite bind_ret|rewrite bind_assoc|call];
    rewrite ?ret_cases; leaf.
Qed.

Lemma plot_calls_saved lim data save_path calls o :
  plot_calls raises lim data save_path [] = (calls, o) ->
  let mean := if given save_path
              then [path_of save_path ++ lit "-mean.png"] else [] in
  let prob := if given save_path
              then [path_of save_path ++ lit "-2048.png"] else [] in
  match o with
  | Returns _ => saved calls = mean ++ prob
  | Raises _ => saved calls = [] \/ saved calls = mean
  end.
Proof.
  unfold plot_calls. rewrite bind_lift.
  destruct (parse_2048_training_data lim data) as [[[[m es] ms] ps]|e];
    [|intros [= <- <-]; by left].
  rewrite bind_ended.
  destruct (draw raises m es ms _ save_path _ []) as [c1 o1] eqn:H1.
  apply draw_cases in H1.
  destruct o1 as [[]|[e|c x]];
    [|intros [= <- <-]; left; destruct H1 as [_ ->]; reflexivity
     |intros [= <- <-]; left; by destruct H1 as [_ ->]].
  destruct H1 as [_ H1]. rewrite app_nil_l in H1.
  rewrite bind_call. destruct (raises c1 Plt.close);
    [intros [= <- <-]; by right|].
  destruct (draw raises m es (Float <$> ps) _ save_path _ (c1 ++ [Plt.close]))
    as [c2 o2] eqn:H2.
  apply draw_cases in H2. intros [= <- <-].
  destruct o2 as [[]|[e|c x]].
  - destruct H2 as [_ ->]. rewrite saved_snoc, app_nil_r. by rewrite H1.
  - destruct H2 as [_ ->]. right.
    rewrite saved_app, saved_snoc, app_nil_r. rewrite H1. apply app_nil_r.
  - destruct H2 as [_ ->]. right. by rewrite saved_snoc, app_nil_r.
Qed.

End CallFacts.

Lemma x_ticks_raises lim data m es ms ps e :
  parse_2048_training_data lim data = OK (m, es, ms, ps) ->
  x_ticks es = Raise e ->
  e = ValueError /\ Forall (fun x => (x < 1000)%Z) es.
Proof.
  intros Hp Ht.
  pose proof (parse_episodes _ _ _ _ _ _ Hp) as Hes.
  pose proof (episodes_nonneg (List.filter is_episode_line (lines_of data)))
    as Hall.
  set (es' := episode_of <$> List.filter is_episode_line (lines_of data)) in *.
  assert (e = ValueError /\ (py_max 0 es' < 1000)%Z) as [-> Hlt].
  { destruct (Z.lt_ge_cases (py_max 0 es') 1000) as [Hlt|Hge].
    - split; [|done]. rewrite Hes in Ht.
      rewrite x_ticks_same_block in Ht; [congruence|]. simpl.
      rewrite (py_min_zero _ Hall). apply Z.eqb_eq.
      rewrite (Z.div_small (py_max 0 es')); [done|].
      pose proof (py_max_ge 0 es'). lia.
    - exfalso. rewrite Hes in Ht.
      assert (1 <= py_max 0 es' / 1000)%Z
        by (apply Z.div_le_lower_bound; lia).
      rewrite x_ticks_blocks in Ht; [done|].
      rewrite (py_min_zero _ Hall). change (0 / 1000)%Z with 0%Z. lia. }
  split; [done|]. rewrite Hes. by apply py_max_lt.
Qed.

(** X14: whatever the calls of matplotlib do, the image of the
    probabilities is not saved unless the image of the means was saved
    before it: the files saved are none, the first, or the first and the
    second.  None is saved when [save_path] is not given; and when it is
    given, both are saved exactly when the function returns.  (A call that
    raises between the two leaves the first image alone.) *)
Theorem saves_mean_image_first {E}
        (raises : list Plt.call -> Plt.call -> option E)
        lim data save_path calls o :
  plot_calls raises lim data save_path [] = (calls, o) ->
  saved calls `prefix_of` [path_of save_path ++ lit "-mean.png";
                           path_of save_path ++ lit "-2048.png"]
  /\ (given save_path = false -> saved calls = [])
  /\ (given save_path = true ->
      o = Returns tt
      <-> saved calls = [path_of save_path ++ lit "-mean.png";
                         path_of save_path ++ lit "-2048.png"]).
Proof.
  intros H. apply plot_calls_saved in H. cbv zeta in H.
  destruct (given save_path), o as [[]|f]; simpl in H.
  - rewrite H. split; [done|]. split; [done|]. by intros _.
  - split; [|split; [done|]].
    + destruct H as [-> | ->]; [apply prefix_nil|]. by eexists.
    + intros _. split; [done|]. by destruct H as [-> | ->].
  - rewrite H. split; [apply prefix_nil|]. by split.
  - assert (saved calls = []) as -> by (by destruct H).
    split; [apply prefix_nil|]. by split.
Qed.

Lemma saves_mean_image_first_witness :
  exists calls c,
    plot_calls second_savefig_fails 4300 (lit "2000 mean = 1 max = 2")
               (Some (lit "result")) []
    = (calls, Raises (Theirs c tt))
    /\ saved calls = [lit "result-mean.png"]
    /\ saved calls `prefix_of` [lit "result-mean.png"; lit "result-2048.png"].
Proof.
  eassert (plot_calls second_savefig_fails 4300 (lit "2000 mean = 1 max = 2")
                      (Some (lit "result")) []
           = (_, Raises (Theirs _ tt))) as H
    by (vm_compute; reflexivity).
  eexists _, _. split; [exact H|]. split; [vm_compute; reflexivity|].
  exact (proj1 (saves_mean_image_first _ _ _ _ _ _ H)).
Defined.

(** X15: the plotting function is left by an exception in three ways only.
    The parser raised [ValueError], and no call of matplotlib was made.
    Or the parser returned, every episode is below 1000, the first six
    calls of the first chart (figure, plot, xlabel, ylabel, title, grid)
    have returned and [range] raised [ValueError]: before any ticks, text
    box or file, and without closing the figure.  Or a call of matplotlib
    raised.  The function raises nothing of its own but [ValueError]. *)
Theorem plot_fails_in_three_ways {E}
        (raises : list Plt.call -> Plt.call -> option E)
        lim data save_path calls f :
  plot_calls raises lim data save_path [] = (calls, Raises f) ->
  match f with
  | Theirs c x => raises calls c = Some x
  | Own e =>
    e = ValueError
    /\ ((parse_2048_training_data lim data = Raise ValueError /\ calls = [])
        \/ exists m es ms ps,
            parse_2048_training_data lim data = OK (m, es, ms, ps)
            /\ Forall (fun x => (x < 1000)%Z) es
            /\ calls = opening es ms "Mean Score per Episode")
  end.
Proof.
  unfold plot_calls. rewrite bind_lift.
  destruct (parse_2048_training_data lim data) as [[[[m es] ms] ps]|e] eqn:Hp.
  - rewrite bind_ended.
    destruct (draw raises m es ms _ save_path _ []) as [c1 o1] eqn:H1.
    apply draw_cases in H1.
    destruct o1 as [[]|[e|c x]].
    + destruct H1 as [[ticks Ht] _].
      rewrite bind_call. destruct (raises c1 Plt.close) eqn:Hc;
        [by intros [= <- <-]|].
      destruct (draw raises m es (Float <$> ps) _ save_path _ (c1 ++ [Plt.close]))
        as [c2 o2] eqn:H2.
      apply draw_cases in H2. intros [= -> ->].
      destruct f as [e|c x]; [|by destruct H2].
      destruct H2 as [H2 _]. congruence.
    + intros [= <- <-]. destruct H1 as [Ht ->].
      destruct (x_ticks_raises _ _ _ _ _ _ _ Hp Ht) as [-> Hlt].
      split; [done|]. right. by exists m, es, ms, ps.
    + intros [= <- <-]. by destruct H1.
  - intros [= <- <-]. pose proof (parse_with_raises _ _ _ _ Hp) as ->.
    split; [done|]. by left.
Qed.

Lemma plot_fails_in_three_ways_witness :
  plot_calls nothing_fails 4300 (lit "999 mean = 1 max = 2")
             (Some (lit "result")) []
  = (opening [0%Z; 999%Z]
             [Int 0; Float (S754_finite false 4503599627370496 (-52))]
             "Mean Score per Episode", Raises (Own ValueError))
  /\ ValueError = ValueError.
Proof.
  assert (plot_calls nothing_fails 4300 (lit "999 mean = 1 max = 2")
                     (Some (lit "result")) []
          = (opening [0%Z; 999%Z]
                     [Int 0; Float (S754_finite false 4503599627370496 (-52))]
                     "Mean Score per Episode", Raises (Own ValueError))) as H
    by (vm_compute; reflexivity).
  split; [exact H|].
  exact (eq_sym (proj1 (plot_fails_in_three_ways _ 4300 _ _ _ _ H))).
Defined.

(** ** The sign of the floats *)

Section Sign.

Local Open Scope Z_scope.

Lemma shr_1_nonneg mrs : 0 <= shr_m mrs -> 0 <= shr_m (shr_1 mrs).
Proof.
  destruct mrs as [m r s]. simpl.
  destruct m as [|p|p]; [done| |lia]. intros _. by destruct p.
Qed.

Lemma iter_shr_1_nonneg p mrs :
  0 <= shr_m mrs -> 0 <= shr_m (SpecFloat.iter_pos shr_1 p mrs).
Proof.
  revert mrs. induction p as [p IH|p IH|]; intros mrs H; simpl;
    auto using shr_1_nonneg.
Qed.

Lemma shr_fexp_nonneg m e l :
  0 <= m -> 0 <= shr_m (fst (shr_fexp Py.prec Py.emax m e l)).
Proof.
  intros H. unfold shr_fexp, shr.
  assert (0 <= shr_m (shr_record_of_loc m l)) as H0
    by (destruct l as [|[]]; exact H).
  destruct (fexp Py.prec Py.emax (Zdigits2 m + e) - e); simpl;
    auto using iter_shr_1_nonneg.
Qed.

Lemma round_nearest_even_nonneg m l : 0 <= m -> 0 <= round_nearest_even m l.
Proof.
  intros H. unfold round_nearest_even.
  destruct l as [|[]]; try destruct (Z.even m); lia.
Qed.

Lemma binary_round_aux_nonnegative m e l :
  0 <= m -> nonnegative (binary_round_aux Py.prec Py.emax false m e l) = true.
Proof.
  intros H. unfold binary_round_aux.
  pose proof (shr_fexp_nonneg m e l H) as H1.
  destruct (shr_fexp Py.prec Py.emax m e l) as [mrs' e']. simpl in H1.
  pose proof (shr_fexp_nonneg _ e' loc_Exact
                (round_nearest_even_nonneg _ (loc_of_shr_record mrs') H1)) as H2.
  destruct (shr_fexp Py.prec Py.emax _ e' loc_Exact) as [mrs'' e''].
  simpl in H2. destruct (shr_m mrs'') as [|p|p]; [done| |lia].
  by destruct (_ <=? _).
Qed.

Lemma decimal_to_binary64_nonnegative n k :
  nonnegative (Py.decimal_to_binary64 n k) = true.
Proof.
  unfold Py.decimal_to_binary64. destruct n as [|m|m]; [done| |done].
  unfold SFdiv, SFdiv_core_binary.
  set (m2 := Z.to_pos (10 ^ Z.of_nat k)).
  match goal with
  | |- context [Z.div_eucl ?a ?b] =>
    pose proof (Z_div_mod a b eq_refl) as Hd;
      assert (0 <= a) as Ha; [|destruct (Z.div_eucl a b) as [q r]]
  end.
  - match goal with
    | |- 0 <= match ?s with _ => _ end => destruct s
    end; try lia. apply Z.shiftl_nonneg. lia.
  - apply binary_round_aux_nonnegative. nia.
Qed.

Lemma float_nonnegative s f : Py.float s = OK f -> nonnegative f = true.
Proof.
  unfold Py.float. destruct (Py.float_literal s); [|done].
  intros [= <-]. apply decimal_to_binary64_nonnegative.
Qed.

End Sign.

Lemma float_of_nonnegative o f : float_of o = Some f -> nonnegative f = true.
Proof.
  unfold float_of. destruct o as [m|]; [|done].
  destruct (Py.float (Re.group1 m)) as [f'|] eqn:Hf; [|done].
  intros [= <-]. by eapply float_nonnegative.
Qed.

Lemma body_nonnegative lim st line st' :
  body lim st line = OK st' ->
  Forall (fun f => nonnegative f = true) (prob2048 st) ->
  Forall (fun x => nonnegative_number x = true) (means st) ->
  Forall (fun f => nonnegative f = true) (prob2048 st')
  /\ Forall (fun x => nonnegative_number x = true) (means st').
Proof.
  intros Hb Hp Hm. destruct (is_episode_line line) eqn:He.
  - destruct (body_episode_line _ _ _ _ He Hb) as (f & Hf & ->). simpl.
    apply float_of_nonnegative in Hf. split.
    + apply Forall_app. split; [done|]. by constructor.
    + apply Forall_app. split; [done|]. by constructor.
  - destruct (is_prob_line line) eqn:Hl.
    + destruct (body_prob_line _ _ _ _ He Hl Hb) as (f & l & Hf & Hs & ->).
      simpl. split; [|done]. apply float_of_nonnegative in Hf.
      unfold Py.set_last in Hs. destruct (prob2048 st) as [|x p] eqn:E; [done|].
      injection Hs as <-. by apply Forall_insert.
    + destruct (body_other_line _ _ _ _ He Hl Hb) as (_ & -> & ->). done.
Qed.

Lemma loop_nonnegative lim lines st st' :
  loop lim lines st = OK st' ->
  Forall (fun f => nonnegative f = true) (prob2048 st) ->
  Forall (fun x => nonnegative_number x = true) (means st) ->
  Forall (fun f => nonnegative f = true) (prob2048 st')
  /\ Forall (fun x => nonnegative_number x = true) (means st').
Proof.
  revert st. induction lines as [|l lines IH]; intros st H Hp Hm.
  - by injection H as <-.
  - rewrite loop_cons in H.
    destruct (body lim st (Py.strip l)) as [st1|] eqn:Hb; [|done].
    destruct (body_nonnegative _ _ _ _ Hb Hp Hm). by apply (IH st1).
Qed.

(** X16: when the call returns, no mean and no probability is negative or a
    NaN: each is +0.0, a positive double or +inf (the patterns capture
    digits and dots only, so no sign, exponent or [nan] reaches
    [float]). *)
Theorem values_are_nonnegative lim data m es ms ps :
  parse_2048_training_data lim data = OK (m, es, ms, ps) ->
  Forall (fun x => nonnegative_number x = true) ms
  /\ Forall (fun f => nonnegative f = true) ps.
Proof.
  intros H. apply parse_with_loop in H as (st & Hl & [= -> -> -> ->]).
  destruct (loop_nonnegative lim _ _ _ Hl) as [Hp Hm];
    [by repeat constructor..|done].
Qed.

Lemma values_are_nonnegative_witness :
  parse_2048_training_data 4300
    (lit "1 mean = " ++ repeat "9"%char 400 ++ lit " max = 2")
  = OK (∅, [0%Z; 1%Z], [Int 0; Float (S754_infinity false)], [zero; zero])
  /\ Forall (fun x => nonnegative_number x = true)
            [Int 0; Float (S754_infinity false)].
Proof.
  assert (parse_2048_training_data 4300
            (lit "1 mean = " ++ repeat "9"%char 400 ++ lit " max = 2")
          = OK (∅, [0%Z; 1%Z], [Int 0; Float (S754_infinity false)],
                [zero; zero])) as H
    by (vm_compute; reflexivity).
  split; [exact H|].
  exact (proj1 (values_are_nonnegative 4300 _ _ _ _ _ H)).
Defined.

(** ** The values of the metadata *)

Lemma startswith_prefix_of s t p :
  Py.startswith s p = true -> Py.startswith (s ++ t) p = true.
Proof.
  revert s. induction p as [|c p IH]; intros s H; [done|].
  destruct s as [|a s]; [done|]. cbn [Py.startswith app] in *.
  destruct (Ascii.eqb a c); [auto|done].
Qed.

Lemma before_sep_prefix sep s : exists t, s = before_sep sep s ++ t.
Proof.
  induction s as [|a s [t IH]]; [by exists []|]. cbn [before_sep].
  destruct (Py.startswith (a :: s) sep).
  - by exists (a :: s).
  - exists t. simpl. by rewrite <- IH.
Qed.

Lemma occurs_before_sep sep s :
  sep <> [] -> occurs sep (before_sep sep s) = false.
Proof.
  intros Hsep. induction s as [|a s IH].
  - simpl. by destruct sep.
  - cbn [before_sep]. destruct (Py.startswith (a :: s) sep) eqn:Hs.
    + simpl. by destruct sep.
    + cbn [occurs]. rewrite IH, orb_false_r.
      destruct (Py.startswith (a :: before_sep sep s) sep) eqn:Hb; [|done].
      destruct (before_sep_prefix sep s) as [t Ht].
      apply (startswith_prefix_of _ t) in Hb.
      change ((a :: before_sep sep s) ++ t) with (a :: before_sep sep s ++ t) in Hb.
      rewrite <- Ht in Hb. congruence.
Qed.

Lemma last_omap_elem {A B} (f : A -> option B) (l : list A) y :
  last (omap f l) = Some y -> exists x, x ∈ l /\ f x = Some y.
Proof.
  intros H. apply last_Some_elem_of, list_elem_of_omap in H. exact H.
Qed.

(** X17: when the call returns, no value of the metadata contains the
    separator [" = "]: a value is cut at the first separator that follows
    the prefix. *)
Theorem metadata_values_without_separator lim data m es ms ps key v :
  parse_2048_training_data lim data = OK (m, es, ms, ps) ->
  m !! key = Some v ->
  occurs (lit " = ") v = false.
Proof.
  intros H Hv. destruct (decide (key ∈ keys)) as [Hk|Hk].
  - rewrite (parse_metadata _ _ _ _ _ _ _ H Hk) in Hv.
    apply last_omap_elem in Hv as (line & _ & Hs). unfold stored in Hs.
    destruct (Py.startswith line (prefix key)); [|done].
    injection Hs as <-. by apply occurs_before_sep.
  - by rewrite (parse_metadata_other _ _ _ _ _ _ _ H Hk) in Hv.
Qed.

Lemma metadata_values_without_separator_witness :
  parse_2048_training_data 4300 (lit "alpha = a = b")
  = OK ({["alpha"%string := lit "a"]}, [0%Z], [Int 0], [zero])
  /\ occurs (lit " = ") (lit "a") = false.
Proof.
  assert (parse_2048_training_data 4300 (lit "alpha = a = b")
          = OK ({["alpha"%string := lit "a"]}, [0%Z], [Int 0], [zero])) as H
    by (vm_compute; reflexivity).
  split; [exact H|].
  exact (metadata_values_without_separator 4300 _ _ _ _ _ "alpha" _ H eq_refl).
Defined.
